(** * University domain model: a shallow embedding of [sources/models.py]
      and [sources/university.py]

    The Python program keeps mutable objects (students, classrooms,
    curricula) that are reachable from several places at once: a student is
    in the university's list and in an exam's roster, a classroom is in the
    university's list and in an exam.  The embedding therefore keeps these
    objects in a store and lets every list hold references.  Methods become
    functions in a state-and-exception monad over that store; a raised
    exception keeps the store as it was when it was raised, as in Python.

    [print] calls are left out: they do not change any object. *)

From stdpp Require Import gmap strings list fin_maps.
From Stdlib Require Import ZArith SpecFloat.

#[local] Open Scope Z_scope.
#[local] Set Default Proof Using "Type".

(** ** Exceptions and results *)

(** [ValueError], [ZeroDivisionError] and [OverflowError] are Python's own;
    the other three are the subclasses of [UniversityError] declared in
    [sources/exceptions.py] that the modelled code raises. *)
Inductive exn : Set :=
  | ValueError
  | ZeroDivisionError
  | OverflowError
  | ResourceError
  | EnrollmentError
  | StateError.

Inductive result (A : Type) : Type :=
  | Ok (a : A)
  | Raise (e : exn).
Arguments Ok {A} a.
Arguments Raise {A} e.

#[global] Instance exn_eq_dec : EqDecision exn.
Proof. solve_decision. Defined.

Definition is_ok {A} (r : result A) : bool :=
  match r with Ok _ => true | Raise _ => false end.

(** ** Python floats

    A Python [float] is an IEEE 754 binary64 number.  [SpecFloat] is the
    standard library's executable specification of that arithmetic
    (round to nearest, ties to even); it is instantiated here at
    precision 53 and maximal exponent 1024. *)
Module B64.

Definition prec : Z := 53.
Definition emax : Z := 1024.
Definition float : Type := spec_float.

Definition add : float -> float -> float := SFadd prec emax.
Definition sub : float -> float -> float := SFsub prec emax.
Definition mul : float -> float -> float := SFmul prec emax.
Definition div : float -> float -> float := SFdiv prec emax.

(** [x >= y]; false as soon as one side is a NaN. *)
Definition geb (x y : float) : bool := SFleb y x.

(** [float(n)] for an integer [n], correctly rounded. *)
Definition of_Z (n : Z) : float := binary_normalize prec emax n 0 false.

(** The literals of the source. *)
Definition zero : float := S754_zero false.
Definition lit_0_1 : float := S754_finite false 7205759403792794 (-56).
Definition lit_6_0 : float := S754_finite false 6755399441055744 (-50).
Definition lit_100_0 : float := S754_finite false 7036874417766400 (-46).

Definition is_finite (x : float) : bool :=
  match x with
  | S754_infinity _ | S754_nan => false
  | _ => true
  end.

(** An integer of any size as an unrounded operand: sign and magnitude
    with exponent 0. *)
Definition exact_int (s : bool) (n : Z) : float :=
  match n with
  | Zpos p => S754_finite s p 0
  | _ => S754_zero s
  end.

(** [a / b] on Python integers: the quotient of the two exact integers,
    rounded once.  Python raises [ZeroDivisionError] for [b = 0] and
    [OverflowError] when the rounded quotient is out of range. *)
Definition int_true_div (a b : Z) : result float :=
  if b =? 0 then Raise ZeroDivisionError
  else
    let q := div (exact_int (a <? 0) (Z.abs a)) (exact_int (b <? 0) (Z.abs b)) in
    if is_finite q then Ok q else Raise OverflowError.

(** The integer nearest to [n / d] for [d > 0], ties to the even one. *)
Definition half_even (n d : Z) : Z :=
  let q := n / d in
  let r := n mod d in
  match 2 * r ?= d with
  | Lt => q
  | Eq => if Z.even q then q else q + 1
  | Gt => q + 1
  end.

(** Python's built-in [round(x, 2)] on a float: the multiple of 1/100
    nearest to the exact value of [x] (ties to the even multiple),
    converted back to the nearest float; the sign of [x] is kept, and
    infinities and NaN are returned as they are. *)
Definition round2 (x : float) : float :=
  match x with
  | S754_finite s m e =>
      let n :=
        match e with
        | Zneg p => half_even (100 * Zpos m) (2 ^ Zpos p)
        | _ => 100 * Zpos m * 2 ^ e
        end in
      div (exact_int s n) (S754_finite false 100 0)
  | _ => x
  end.

End B64.

Abbreviation float := B64.float.

(** ** Entities *)

(** A reference to an object of the store. *)
Definition loc : Set := nat.

Inductive TeacherDegree : Set :=
  | DOCTOR_OF_SCIENCES
  | CANDIDATE_OF_SCIENCES
  | ASSOCIATE_PROFESSOR
  | PROFESSOR
  | SENIOR_LECTURER
  | LECTURER.

(** [Book] is a frozen dataclass: a value, compared field by field. *)
Record Book : Set := mkBook {
  title : string;
  author : string;
  isbn : string
}.

#[global] Instance Book_eq_dec : EqDecision Book.
Proof. solve_decision. Defined.

Record Curriculum : Set := mkCurriculum {
  specialty_name : string;
  required_subjects : list string
}.

Record Classroom : Set := mkClassroom {
  number : Z;
  capacity : Z;
  is_occupied : bool
}.

(** [Person]'s fields are repeated in [Student] and [Teacher]. *)
Record Student : Type := mkStudent {
  full_name : string;
  age : Z;
  person_id : string;
  curriculum : option loc;
  scholarship_amount : float;
  record_book : gmap string Z;
  borrowed_books : list Book
}.

(** No method changes a [Teacher] after its creation, so teachers are
    values. *)
Record Teacher : Set := mkTeacher {
  teacher_name : string;
  teacher_age : Z;
  teacher_id : string;
  degree : option TeacherDegree;
  subjects : list string
}.

Record ScholarshipDepartment : Type := mkScholarshipDepartment {
  min_average_score : float;
  base_amount : float
}.

(** A Python [dict] iterates in insertion order and [lend_book] takes the
    first entry with a given title, so the inventory is an association
    list in insertion order. *)
Record Library : Set := mkLibrary {
  inventory : list (Book * Z)
}.

(** An [Exam] is never changed after its creation; it refers to its
    classroom and to its students. *)
Record Exam : Set := mkExam {
  subject : string;
  date : Z;
  teacher : Teacher;
  classroom : loc;
  registered_students : list loc
}.

Record University : Type := mkUniversity {
  name : string;
  library : Library;
  accounting : ScholarshipDepartment;
  students : list loc;
  teachers : list Teacher;
  classrooms : list loc;
  curriculums : list loc;
  exams : list Exam
}.

(** ** The store *)

(** The objects by reference, the university, and how many values were
    taken so far from the random generator, from [uuid4] and from the
    clock. *)
Record World : Type := mkWorld {
  curriculum_heap : gmap loc Curriculum;
  classroom_heap : gmap loc Classroom;
  student_heap : gmap loc Student;
  uni : University;
  draws : nat;
  uuids : nat;
  ticks : nat
}.

#[global] Instance Curriculum_inhabited : Inhabited Curriculum :=
  populate (mkCurriculum "" []).
#[global] Instance Classroom_inhabited : Inhabited Classroom :=
  populate (mkClassroom 0 0 false).
#[global] Instance Student_inhabited : Inhabited Student :=
  populate (mkStudent "" 0 "" None B64.zero ∅ []).

(** Every reference the program holds is to an object that exists; the
    total lookup [!!!] only keeps the functions below total. *)
Definition get_student (w : World) (s : loc) : Student := student_heap w !!! s.
Definition get_classroom (w : World) (c : loc) : Classroom := classroom_heap w !!! c.
Definition get_curriculum_obj (w : World) (c : loc) : Curriculum := curriculum_heap w !!! c.

Definition set_student (s : loc) (v : Student) (w : World) : World :=
  mkWorld (curriculum_heap w) (classroom_heap w) (<[s := v]> (student_heap w))
          (uni w) (draws w) (uuids w) (ticks w).

Definition set_classroom (c : loc) (v : Classroom) (w : World) : World :=
  mkWorld (curriculum_heap w) (<[c := v]> (classroom_heap w)) (student_heap w)
          (uni w) (draws w) (uuids w) (ticks w).

Definition set_uni (u : University) (w : World) : World :=
  mkWorld (curriculum_heap w) (classroom_heap w) (student_heap w)
          u (draws w) (uuids w) (ticks w).

(** ** The monad: state and exceptions *)

Definition M (A : Type) : Type := World -> result A * World.

Definition ret {A} (a : A) : M A := fun w => (Ok a, w).
Definition raise {A} (e : exn) : M A := fun w => (Raise e, w).
Definition bind {A B} (m : M A) (k : A -> M B) : M B :=
  fun w =>
    match m w with
    | (Ok a, w') => k a w'
    | (Raise e, w') => (Raise e, w')
    end.

Notation "x <- m ;; k" := (bind m (fun x => k))
  (at level 100, m at next level, right associativity).
Notation "m ;;; k" := (bind m (fun _ => k))
  (at level 100, right associativity).

(** ** Classroom *)

Definition occupy (c : loc) : M unit :=
  fun w =>
    let room := get_classroom w c in
    if is_occupied room then raise StateError w
    else ret tt (set_classroom c (mkClassroom (number room) (capacity room) true) w).

Definition vacate (c : loc) : M unit :=
  fun w =>
    let room := get_classroom w c in
    if negb (is_occupied room) then raise StateError w
    else ret tt (set_classroom c (mkClassroom (number room) (capacity room) false) w).

(** ** Student *)

(** [subject_name in l] on a list of strings. *)
Definition in_list (x : string) (l : list string) : bool :=
  bool_decide (x ∈ l).

Definition with_record_book (s : Student) (rb : gmap string Z) : Student :=
  mkStudent (full_name s) (age s) (person_id s) (curriculum s)
            (scholarship_amount s) rb (borrowed_books s).

Definition with_scholarship (s : Student) (a : float) : Student :=
  mkStudent (full_name s) (age s) (person_id s) (curriculum s)
            a (record_book s) (borrowed_books s).

Definition with_borrowed (s : Student) (bs : list Book) : Student :=
  mkStudent (full_name s) (age s) (person_id s) (curriculum s)
            (scholarship_amount s) (record_book s) bs.

(** [self.record_book.values()] *)
Definition grades (s : Student) : list Z := (map_to_list (record_book s)).*2.

(** Python's [sum] on integers. *)
Definition sum (l : list Z) : Z := foldr Z.add 0 l.

(** The property [average_score]. *)
Definition average_score (s : Student) : result float :=
  if bool_decide (record_book s = ∅) then Ok B64.zero
  else B64.int_true_div (sum (grades s)) (Z.of_nat (size (record_book s))).

Definition assign_scholarship (s : loc) (amount : float) : M unit :=
  fun w => ret tt (set_student s (with_scholarship (get_student w s) amount) w).

(** The second test of [take_exam]: the student has a curriculum and the
    subject is not among its required subjects. *)
Definition outside_curriculum (w : World) (st : Student) (subject_name : string) : bool :=
  match curriculum st with
  | Some c => negb (in_list subject_name (required_subjects (get_curriculum_obj w c)))
  | None => false
  end.

Definition take_exam (s : loc) (subject_name : string) (grade : Z) : M unit :=
  fun w =>
    let st := get_student w s in
    if negb ((0 <=? grade) && (grade <=? 10)) then raise ValueError w
    else if outside_curriculum w st subject_name then raise EnrollmentError w
    else ret tt (set_student s (with_record_book st (<[subject_name := grade]> (record_book st))) w).

Definition holds_book (st : Student) (b : Book) : bool :=
  bool_decide (b ∈ borrowed_books st).

Definition borrow_book (s : loc) (b : Book) : M unit :=
  fun w =>
    let st := get_student w s in
    if holds_book st b then raise ResourceError w
    else ret tt (set_student s (with_borrowed st (borrowed_books st ++ [b])) w).

(** [list.remove] takes out the first equal element. *)
Fixpoint remove_first (b : Book) (l : list Book) : list Book :=
  match l with
  | [] => []
  | x :: r => if bool_decide (x = b) then r else x :: remove_first b r
  end.

Definition return_book (s : loc) (b : Book) : M unit :=
  fun w =>
    let st := get_student w s in
    if holds_book st b
    then ret tt (set_student s (with_borrowed st (remove_first b (borrowed_books st))) w)
    else raise ResourceError w.

(** ** Teacher *)

Definition evaluate_student (t : Teacher) (s : loc) (subj : string) (grade : Z) : M unit :=
  take_exam s subj grade.

(** ** ScholarshipDepartment *)

(** Reading the property [student.average_score] of a stored student. *)
Definition read_average_score (s : loc) : M float :=
  fun w =>
    match average_score (get_student w s) with
    | Ok a => ret a w
    | Raise e => raise e w
    end.

(** The [for] loop of [calculate_and_assign]; [count] is the number of
    students found eligible so far. *)
Fixpoint calculate_and_assign_loop (d : ScholarshipDepartment) (l : list loc)
    (count : nat) : M nat :=
  match l with
  | [] => ret count
  | student :: rest =>
      avg <- read_average_score student ;;
      if B64.geb avg (min_average_score d) then
        let bonus := B64.mul (B64.sub avg (min_average_score d)) B64.lit_0_1 in
        let final_amount :=
          B64.round2 (B64.mul (base_amount d) (B64.add (B64.of_Z 1) bonus)) in
        assign_scholarship student final_amount ;;;
        calculate_and_assign_loop d rest (S count)
      else
        assign_scholarship student B64.zero ;;;
        calculate_and_assign_loop d rest count
  end.

(** The count is only printed. *)
Definition calculate_and_assign (d : ScholarshipDepartment) (l : list loc) : M unit :=
  calculate_and_assign_loop d l 0%nat ;;; ret tt.

(** ** Library *)

(** [self.inventory.get(book)] *)
Fixpoint lookup_count (b : Book) (inv : list (Book * Z)) : option Z :=
  match inv with
  | [] => None
  | (b', n) :: r => if bool_decide (b' = b) then Some n else lookup_count b r
  end.

(** [self.inventory[book] = n]: an existing key keeps its place, a new
    key goes to the end. *)
Fixpoint set_count (b : Book) (n : Z) (inv : list (Book * Z)) : list (Book * Z) :=
  match inv with
  | [] => [(b, n)]
  | (b', n') :: r =>
      if bool_decide (b' = b) then (b', n) :: r else (b', n') :: set_count b n r
  end.

(** [self.inventory[book]] for a key that is in the dictionary. *)
Definition count_of (b : Book) (inv : list (Book * Z)) : Z :=
  default 0 (lookup_count b inv).

(** [next((b for b in self.inventory if b.title == book_title), None)] *)
Fixpoint find_title (book_title : string) (inv : list (Book * Z)) : option Book :=
  match inv with
  | [] => None
  | (b, _) :: r =>
      if bool_decide (title b = book_title) then Some b else find_title book_title r
  end.

Definition get_inventory (w : World) : list (Book * Z) := inventory (library (uni w)).

Definition set_inventory (inv : list (Book * Z)) (w : World) : World :=
  let u := uni w in
  set_uni (mkUniversity (name u) (mkLibrary inv) (accounting u) (students u)
                        (teachers u) (classrooms u) (curriculums u) (exams u)) w.

Definition add_book (book : Book) (quantity : Z) : M unit :=
  fun w =>
    let inv := get_inventory w in
    match lookup_count book inv with
    | Some n => ret tt (set_inventory (set_count book (n + quantity) inv) w)
    | None => ret tt (set_inventory (set_count book quantity inv) w)
    end.

(** [self.inventory[found_book] += k] *)
Definition bump_count (b : Book) (k : Z) : M unit :=
  fun w =>
    let inv := get_inventory w in
    ret tt (set_inventory (set_count b (count_of b inv + k) inv) w).

Definition lend_book (student : loc) (book_title : string) : M unit :=
  fun w =>
    match find_title book_title (get_inventory w) with
    | None => raise ResourceError w
    | Some found_book =>
        if count_of found_book (get_inventory w) <=? 0 then raise ResourceError w
        else (borrow_book student found_book ;;; bump_count found_book (-1)) w
    end.

Definition accept_return (student : loc) (book_title : string) : M unit :=
  fun w =>
    match find_title book_title (get_inventory w) with
    | None => raise ResourceError w
    | Some found_book =>
        if negb (holds_book (get_student w student) found_book) then raise ResourceError w
        else (return_book student found_book ;;; bump_count found_book 1) w
    end.

(** One more value was taken from the random generator. *)
Definition next_draw (w : World) : World :=
  mkWorld (curriculum_heap w) (classroom_heap w) (student_heap w)
          (uni w) (S (draws w)) (uuids w) (ticks w).

Section Environment.

(** What the program takes from outside: Python's [str.lower], and the
    successive values of the random generator, of [uuid4] and of the
    clock. *)
Variable lower : string -> string.
Variable entropy : nat -> Z.
Variable uuid4 : nat -> string.
Variable now : nat -> Z.

(** [randint(lo, hi)]: the next random value, brought into [lo..hi]. *)
Definition randint (lo hi : Z) : M Z :=
  fun w => (Ok (lo + entropy (draws w) mod (hi - lo + 1)), next_draw w).

(** ** Exam *)

(** The [for] loop of [conduct]. *)
Fixpoint conduct_loop (e : Exam) (roster : list loc) (students_to_expel : list loc)
    : M (list loc) :=
  match roster with
  | [] => ret students_to_expel
  | student :: rest =>
      grade <- randint 1 10 ;;
      evaluate_student (teacher e) student (subject e) grade ;;;
      if grade <? 4
      then conduct_loop e rest (students_to_expel ++ [student])
      else conduct_loop e rest students_to_expel
  end.

Definition conduct (e : Exam) : M (list loc) :=
  occupy (classroom e) ;;;
  students_to_expel <- conduct_loop e (registered_students e) [] ;;
  vacate (classroom e) ;;;
  ret students_to_expel.

(** ** University *)

Definition get_curriculum (w : World) (name : string) : option loc :=
  List.find
    (fun c => bool_decide (lower (specialty_name (get_curriculum_obj w c)) = lower name))
    (curriculums (uni w)).

Definition enroll_student (full_name : string) (age : Z) (curriculum_name : string)
    : M loc :=
  fun w =>
    match get_curriculum w curriculum_name with
    | None => raise EnrollmentError w
    | Some curr =>
        let new_student :=
          mkStudent full_name age (uuid4 (uuids w)) (Some curr) B64.zero ∅ [] in
        let r := fresh (dom (student_heap w)) in
        let u := uni w in
        ret r
          (mkWorld (curriculum_heap w) (classroom_heap w)
                   (<[r := new_student]> (student_heap w))
                   (mkUniversity (name u) (library u) (accounting u)
                                 (students u ++ [r]) (teachers u) (classrooms u)
                                 (curriculums u) (exams u))
                   (draws w) (S (uuids w)) (ticks w))
    end.

Definition create_exam (subj : string) (tchr : Teacher) (room : loc)
    (roster : list loc) : M Exam :=
  fun w =>
    if negb (in_list subj (subjects tchr)) then raise EnrollmentError w
    else
      let exam := mkExam subj (now (ticks w)) tchr room roster in
      let u := uni w in
      ret exam
        (mkWorld (curriculum_heap w) (classroom_heap w) (student_heap w)
                 (mkUniversity (name u) (library u) (accounting u)
                               (students u) (teachers u) (classrooms u)
                               (curriculums u) (exams u ++ [exam]))
                 (draws w) (uuids w) (S (ticks w))).


(** ** The other methods of [models.py] and [university.py] *)

(** Python's [str.strip]. *)
Variable strip : string -> string.

Definition set_curriculum (c : loc) (v : Curriculum) (w : World) : World :=
  mkWorld (<[c := v]> (curriculum_heap w)) (classroom_heap w) (student_heap w)
          (uni w) (draws w) (uuids w) (ticks w).

(** [Curriculum.add_subject] *)
Definition add_subject (c : loc) (subject_name : string) : M unit :=
  fun w =>
    let cur := get_curriculum_obj w c in
    if bool_decide (strip subject_name = "") then raise ValueError w
    else if in_list subject_name (required_subjects cur) then ret tt w
    else ret tt (set_curriculum c
                   (mkCurriculum (specialty_name cur)
                                 (required_subjects cur ++ [subject_name])) w).

#[global] Instance TeacherDegree_eq_dec : EqDecision TeacherDegree.
Proof. solve_decision. Defined.

#[global] Instance Teacher_eq_dec : EqDecision Teacher.
Proof. solve_decision. Defined.

#[global] Instance Curriculum_eq_dec : EqDecision Curriculum.
Proof. solve_decision. Defined.

(** [==] on two floats. *)
Definition float_eqb (x y : float) : bool := SFeqb x y.

(** [==] on two [Optional[Curriculum]] fields: the same object, or two
    curricula with equal names and equal subject lists. *)
Definition curriculum_eqb (w : World) (a b : option loc) : bool :=
  match a, b with
  | None, None => true
  | Some x, Some y =>
      bool_decide (x = y)
      || bool_decide (get_curriculum_obj w x = get_curriculum_obj w y)
  | _, _ => false
  end.

(** What [in] and [list.remove] test on students: the same object, or
    the [==] the dataclass generates, which compares the fields one by
    one. Two different students hold different float objects, so their
    amounts are compared as floats. *)
Definition student_eqb (w : World) (a b : loc) : bool :=
  bool_decide (a = b)
  || (let x := get_student w a in
      let y := get_student w b in
      bool_decide (full_name x = full_name y)
      && bool_decide (age x = age y)
      && bool_decide (person_id x = person_id y)
      && curriculum_eqb w (curriculum x) (curriculum y)
      && float_eqb (scholarship_amount x) (scholarship_amount y)
      && bool_decide (record_book x = record_book y)
      && bool_decide (borrowed_books x = borrowed_books y)).

(** [self.students.remove(student)]: the first equal element goes. *)
Fixpoint remove_student (w : World) (student : loc) (l : list loc) : list loc :=
  match l with
  | [] => []
  | x :: r => if student_eqb w x student then r else x :: remove_student w student r
  end.

Definition set_students (l : list loc) (w : World) : World :=
  let u := uni w in
  set_uni (mkUniversity (name u) (library u) (accounting u) l
                        (teachers u) (classrooms u) (curriculums u) (exams u)) w.

(** [University.expel_student] *)
Definition expel_student (student : loc) : M unit :=
  fun w =>
    if existsb (fun x => student_eqb w x student) (students (uni w))
    then ret tt (set_students (remove_student w student (students (uni w))) w)
    else ret tt w.

Fixpoint remove_teacher (t : Teacher) (l : list Teacher) : list Teacher :=
  match l with
  | [] => []
  | x :: r => if bool_decide (x = t) then r else x :: remove_teacher t r
  end.

Definition set_teachers (l : list Teacher) (w : World) : World :=
  let u := uni w in
  set_uni (mkUniversity (name u) (library u) (accounting u) (students u)
                        l (classrooms u) (curriculums u) (exams u)) w.

(** [University.enroll_teacher] *)
Definition enroll_teacher (full_name : string) (age : Z) (deg : TeacherDegree)
    (subjs : list string) : M Teacher :=
  fun w =>
    match subjs with
    | [] => raise EnrollmentError w
    | _ =>
        let new_teacher := mkTeacher full_name age (uuid4 (uuids w)) (Some deg) subjs in
        let u := uni w in
        ret new_teacher
          (mkWorld (curriculum_heap w) (classroom_heap w) (student_heap w)
                   (mkUniversity (name u) (library u) (accounting u) (students u)
                                 (teachers u ++ [new_teacher]) (classrooms u)
                                 (curriculums u) (exams u))
                   (draws w) (S (uuids w)) (ticks w))
    end.

(** [University.fire_teacher] *)
Definition fire_teacher (t : Teacher) : M unit :=
  fun w =>
    if bool_decide (t ∈ teachers (uni w))
    then ret tt (set_teachers (remove_teacher t (teachers (uni w))) w)
    else ret tt w.

(** [University.add_curriculum] *)
Definition add_curriculum (specialty : string) : M loc :=
  fun w =>
    if bool_decide (strip specialty = "") then raise ValueError w
    else
      match get_curriculum w specialty with
      | Some _ => raise ResourceError w
      | None =>
          let r := fresh (dom (curriculum_heap w)) in
          let u := uni w in
          ret r
            (mkWorld (<[r := mkCurriculum specialty []]> (curriculum_heap w))
                     (classroom_heap w) (student_heap w)
                     (mkUniversity (name u) (library u) (accounting u) (students u)
                                   (teachers u) (classrooms u)
                                   (curriculums u ++ [r]) (exams u))
                     (draws w) (uuids w) (ticks w))
      end.

(** [University.add_classroom] *)
Definition add_classroom (num cap : Z) : M loc :=
  fun w =>
    if existsb (fun c => number (get_classroom w c) =? num) (classrooms (uni w))
    then raise ResourceError w
    else
      let r := fresh (dom (classroom_heap w)) in
      let u := uni w in
      ret r
        (mkWorld (curriculum_heap w)
                 (<[r := mkClassroom num cap false]> (classroom_heap w))
                 (student_heap w)
                 (mkUniversity (name u) (library u) (accounting u) (students u)
                               (teachers u) (classrooms u ++ [r])
                               (curriculums u) (exams u))
                 (draws w) (uuids w) (ticks w)).

(** [University.process_semester_end] *)
Definition process_semester_end : M unit :=
  fun w =>
    match students (uni w) with
    | [] => ret tt w
    | _ => calculate_and_assign (accounting (uni w)) (students (uni w)) w
    end.

(** ** [handle_functions.conduct_exam]

    The subject is what the user typed at the prompt. *)

(** [s.curriculum and subject in s.curriculum.required_subjects] *)
Definition has_subject (w : World) (st : Student) (subj : string) : bool :=
  match curriculum st with
  | Some c => in_list subj (required_subjects (get_curriculum_obj w c))
  | None => false
  end.

(** The loop over the students to expel. *)
Fixpoint expel_all (l : list loc) : M unit :=
  match l with
  | [] => ret tt
  | student :: rest => expel_student student ;;; expel_all rest
  end.

Definition conduct_exam (subj : string) : M unit :=
  fun w =>
    match List.find (fun t => in_list subj (subjects t)) (teachers (uni w)) with
    | None => raise EnrollmentError w
    | Some tchr =>
        match List.find (fun c => negb (is_occupied (get_classroom w c)))
                        (classrooms (uni w)) with
        | None => raise StateError w
        | Some room =>
            let eligible_students :=
              List.filter (fun s => has_subject w (get_student w s) subj)
                          (students (uni w)) in
            match eligible_students with
            | [] => raise EnrollmentError w
            | _ =>
                (exam <- create_exam subj tchr room eligible_students ;;
                 students_to_expel <- conduct exam ;;
                 match students_to_expel with
                 | [] => ret tt
                 | _ => expel_all students_to_expel
                 end) w
            end
        end
    end.

(** ** Definitions that follow the specification's words *)

(** The amount the specification gives a student of average [avg]:
    [round(base_amount * (1 + (avg - min_average_score) * 0.1), 2)] from the
    minimum on, and 0.0 below it. *)
Definition scholarship_formula (d : ScholarshipDepartment) (avg : float) : float :=
  if B64.geb avg (min_average_score d) then
    B64.round2
      (B64.mul (base_amount d)
         (B64.add (B64.of_Z 1)
            (B64.mul (B64.sub avg (min_average_score d)) B64.lit_0_1)))
  else B64.zero.

(** The arithmetic mean of a list of integer grades, as Python computes
    it: the exact total over the exact count, rounded once. *)
Definition arithmetic_mean (l : list Z) : result float :=
  B64.int_true_div (sum l) (Z.of_nat (length l)).

(** The grade generated for the student at position [i] of the roster of
    an exam that starts in the world [w]. *)
Definition generated_grade (w : World) (i : nat) : Z :=
  1 + entropy (draws w + i) mod 10.

Definition generated_grades (w : World) (n : nat) : list Z :=
  generated_grade w <$> seq 0 n.

(** The students of a roster whose grade is below 4, in roster order. *)
Definition failed_students (roster : list loc) (gs : list Z) : list loc :=
  (filter (fun p => p.2 < 4) (zip roster gs)).*1.

(** Writing grade [g] for [subj] into the record book of student [s]. *)
Definition record_grade (subj : string) (h : gmap loc Student) (p : loc * Z)
    : gmap loc Student :=
  let st := h !!! p.1 in
  <[p.1 := with_record_book st (<[subj := p.2]> (record_book st))]> h.

(** The data model's range for grades: every grade of the record book
    is between 0 and 10. [take_exam] writes no other grade. *)
Definition grades_in_range (st : Student) : Prop :=
  map_Forall (fun _ g => 0 <= g <= 10) (record_book st).

#[global] Instance grades_in_range_dec st : Decision (grades_in_range st).
Proof. unfold grades_in_range. apply _. Defined.

(** The calls a library receives. *)
Inductive library_call : Set :=
  | CallAddBook (book : Book) (quantity : Z)
  | CallLendBook (student : loc) (book_title : string)
  | CallAcceptReturn (student : loc) (book_title : string).

(** The world after a call, whether it returned or raised. *)
Definition after_call (c : library_call) (w : World) : World :=
  match c with
  | CallAddBook b q => snd (add_book b q w)
  | CallLendBook s t => snd (lend_book s t w)
  | CallAcceptReturn s t => snd (accept_return s t w)
  end.

Definition after_calls (cs : list library_call) (w : World) : World :=
  foldl (fun w c => after_call c w) w cs.

Definition adds_nonnegative (c : library_call) : Prop :=
  match c with
  | CallAddBook _ q => 0 <= q
  | _ => True
  end.

Definition counts_nonnegative (w : World) : Prop :=
  Forall (fun e : Book * Z => 0 <= e.2) (get_inventory w).

(** The world in which an exam over [roster] ends when nobody raises:
    every generated grade was written, in roster order, and as many random
    values were taken as there are students. *)
Definition graded_world (w : World) (subj : string) (roster : list loc) : World :=
  mkWorld (curriculum_heap w) (classroom_heap w)
          (foldl (record_grade subj) (student_heap w)
                 (zip roster (generated_grades w (length roster))))
          (uni w) (draws w + length roster)%nat (uuids w) (ticks w).

(** The world after an exam that nobody interrupted: the grades are
    written and the classroom is free again. *)
Definition conducted_world (w : World) (e : Exam) : World :=
  let c := classroom e in
  let w1 := set_classroom c (mkClassroom (number (get_classroom w c))
                                         (capacity (get_classroom w c)) true) w in
  let w2 := graded_world w1 (subject e) (registered_students e) in
  set_classroom c (mkClassroom (number (get_classroom w2 c))
                               (capacity (get_classroom w2 c)) false) w2.

(** How often [b] is in a list of books. *)
Definition occurrences (b : Book) (l : list Book) : Z :=
  Z.of_nat (length (filter (fun x => x = b) l)).

(** The copies of [b] that students hold: the occurrences of [b] in the
    borrowed lists of all students. *)
Definition held_copies (b : Book) (w : World) : Z :=
  sum ((fun p : loc * Student => occurrences b (borrowed_books p.2))
         <$> map_to_list (student_heap w)).

(** The copies of [b] in the library and with the students. *)
Definition copies_total (b : Book) (w : World) : Z :=
  count_of b (get_inventory w) + held_copies b w.

(** Every classroom of the university is an object of the store. *)
Definition classrooms_allocated (w : World) : Prop :=
  Forall (fun c => is_Some (classroom_heap w !! c)) (classrooms (uni w)).

(** The numbers of the university's classrooms, in list order. *)
Definition classroom_numbers (w : World) : list Z :=
  (fun c => number (get_classroom w c)) <$> classrooms (uni w).

(** Every curriculum of the university is an object of the store. *)
Definition curricula_allocated (w : World) : Prop :=
  Forall (fun c => is_Some (curriculum_heap w !! c)) (curriculums (uni w)).

(** The lowered specialty names of the university's curricula. *)
Definition curriculum_keys (w : World) : list string :=
  (fun c => lower (specialty_name (get_curriculum_obj w c))) <$> curriculums (uni w).

(** Every enrolled student is an object of the store. *)
Definition students_allocated (w : World) : Prop :=
  Forall (fun s => is_Some (student_heap w !! s)) (students (uni w)).

(** The ids of the enrolled students, in list order. *)
Definition student_ids (w : World) : list string :=
  (fun s => person_id (get_student w s)) <$> students (uni w).

(** What a successful [add_classroom] leaves. *)
Definition with_classroom (num cap : Z) (w : World) : World :=
  let r := fresh (dom (classroom_heap w)) in
  let u := uni w in
  mkWorld (curriculum_heap w)
          (<[r := mkClassroom num cap false]> (classroom_heap w))
          (student_heap w)
          (mkUniversity (name u) (library u) (accounting u) (students u)
                        (teachers u) (classrooms u ++ [r])
                        (curriculums u) (exams u))
          (draws w) (uuids w) (ticks w).

(** What a successful [add_curriculum] leaves. *)
Definition with_curriculum (specialty : string) (w : World) : World :=
  let r := fresh (dom (curriculum_heap w)) in
  let u := uni w in
  mkWorld (<[r := mkCurriculum specialty []]> (curriculum_heap w))
          (classroom_heap w) (student_heap w)
          (mkUniversity (name u) (library u) (accounting u) (students u)
                        (teachers u) (classrooms u)
                        (curriculums u ++ [r]) (exams u))
          (draws w) (uuids w) (ticks w).

(** The students [conduct_exam] registers for a subject. *)
Definition eligible_students (w : World) (subj : string) : list loc :=
  List.filter (fun s => has_subject w (get_student w s) subj) (students (uni w)).

(** The world after [create_exam]. *)
Definition with_exam (ex : Exam) (w : World) : World :=
  let u := uni w in
  mkWorld (curriculum_heap w) (classroom_heap w) (student_heap w)
          (mkUniversity (name u) (library u) (accounting u)
                        (students u) (teachers u) (classrooms u)
                        (curriculums u) (exams u ++ [ex]))
          (draws w) (uuids w) (S (ticks w)).

(** ** Scenarios

    The objects of [tests/tests.py], used below to run the functions. *)

(** [TestExamProcess]: curriculum IT with the subject OOP, two students
    enrolled in it, a teacher of OOP, classroom 101. *)
Definition it_curriculum : Curriculum := mkCurriculum "IT" ["OOP"].
Definition student_s1 : Student := mkStudent "S1" 20 "id-s1" (Some 0%nat) B64.zero ∅ [].
Definition student_s2 : Student := mkStudent "S2" 20 "id-s2" (Some 0%nat) B64.zero ∅ [].
Definition oop_teacher : Teacher :=
  mkTeacher "T" 40 "id-t" (Some ASSOCIATE_PROFESSOR) ["OOP"].
Definition history_teacher : Teacher :=
  mkTeacher "H" 30 "id-h" (Some LECTURER) ["History"].
Definition default_accounting : ScholarshipDepartment :=
  mkScholarshipDepartment B64.lit_6_0 B64.lit_100_0.

Definition exam_uni : University :=
  mkUniversity "ExamUni" (mkLibrary []) default_accounting
               [0%nat; 1%nat] [oop_teacher; history_teacher] [0%nat] [0%nat] [].

Definition exam_world : World :=
  mkWorld {[0%nat := it_curriculum]}
          {[0%nat := mkClassroom 101 10 false]}
          {[0%nat := student_s1; 1%nat := student_s2]}
          exam_uni 0 0 0.

(** The same world with classroom 101 taken. *)
Definition busy_world : World :=
  mkWorld {[0%nat := it_curriculum]}
          {[0%nat := mkClassroom 101 10 true]}
          {[0%nat := student_s1; 1%nat := student_s2]}
          exam_uni 0 0 0.

Definition oop_exam : Exam := mkExam "OOP" 0 oop_teacher 0%nat [0%nat; 1%nat].

(** An exam in a subject that is not in the students' curriculum;
    [create_exam] accepts it, as its teacher teaches the subject. *)
Definition history_exam : Exam := mkExam "History" 0 history_teacher 0%nat [0%nat; 1%nat].

(** [TestLibrary]: a reader without curriculum and the book 1984. *)
Definition book_1984 : Book := mkBook "1984" "Orwell" "isbn-1984".
Definition reader : Student := mkStudent "Reader" 20 "id-r" None B64.zero ∅ [].
Definition library_world : World :=
  mkWorld ∅ ∅ {[0%nat := reader]}
          (mkUniversity "TestUni" (mkLibrary []) default_accounting [0%nat] [] [] [] [])
          0 0 0.
Definition stocked_world : World := (add_book book_1984 2 library_world).2.

(** [TestScholarship]: one student averaging 8.0 and one averaging 4.0. *)
Definition good_student : Student :=
  mkStudent "Good" 20 "id-g" None B64.zero {["A" := 8; "B" := 8]} [].
Definition bad_student : Student :=
  mkStudent "Bad" 20 "id-b" None B64.zero {["A" := 4; "B" := 4]} [].
Definition scholarship_world : World :=
  mkWorld ∅ ∅ {[0%nat := good_student; 1%nat := bad_student]}
          (mkUniversity "TestUni" (mkLibrary []) default_accounting
                        [0%nat; 1%nat] [] [] [] [])
          0 0 0.

(** As in [TestStudent.test_average_score]: a record book with the grades
    8 and 10. *)
Definition ivan : Student :=
  mkStudent "Ivan" 20 "id-i" None B64.zero {["Math" := 8; "Code" := 10]} [].

(** [str.lower] on the letters A to Z, enough for the names of the tests. *)
Definition lower_ascii_char (c : Ascii.ascii) : Ascii.ascii :=
  let n := Ascii.nat_of_ascii c in
  if ((65 <=? n) && (n <=? 90))%nat then Ascii.ascii_of_nat (n + 32) else c.

Fixpoint lower_ascii (s : string) : string :=
  match s with
  | EmptyString => EmptyString
  | String c r => String (lower_ascii_char c) (lower_ascii r)
  end.

(** [str.strip] for the blanks of ASCII, enough for the names of the tests. *)
Definition is_blank (c : Ascii.ascii) : bool :=
  let n := Ascii.nat_of_ascii c in
  ((n =? 32) || ((9 <=? n) && (n <=? 13)))%nat.

Fixpoint lstrip_ascii (s : string) : string :=
  match s with
  | EmptyString => EmptyString
  | String c r => if is_blank c then lstrip_ascii r else s
  end.

Fixpoint reverse_onto (s acc : string) : string :=
  match s with
  | EmptyString => acc
  | String c r => reverse_onto r (String c acc)
  end.

Definition strip_ascii (s : string) : string :=
  reverse_onto (lstrip_ascii (reverse_onto (lstrip_ascii s) "")) "".

(** The exam world after the reader of S1 borrowed a book. *)
Definition s1_reading : Student :=
  mkStudent "S1" 20 "id-s1" (Some 0%nat) B64.zero ∅ [book_1984].

Definition lent_world : World :=
  mkWorld ∅ ∅ {[0%nat := mkStudent "Reader" 20 "id-r" None B64.zero ∅ [book_1984]]}
          (mkUniversity "TestUni" (mkLibrary [(book_1984, 1)]) default_accounting
                        [0%nat] [] [] [] [])
          0 0 0.

(** * Properties *)

(** ** The monad *)

Lemma bind_ok {A B} (m : M A) (k : A -> M B) w a w' :
  m w = (Ok a, w') -> bind m k w = k a w'.
Proof. intros H. unfold bind. by rewrite H. Qed.

Lemma bind_raise {A B} (m : M A) (k : A -> M B) w e w' :
  m w = (Raise e, w') -> bind m k w = (Raise e, w').
Proof. intros H. unfold bind. by rewrite H. Qed.

(** ** Python floats: the literals and [round] on known values *)

(** The literals are the floats nearest to 0.1, 6 and 100. *)
Lemma literals_nearest :
  B64.int_true_div 1 10 = Ok B64.lit_0_1 /\
  B64.of_Z 6 = B64.lit_6_0 /\
  B64.of_Z 100 = B64.lit_100_0.
Proof. by vm_compute. Qed.

(** [round(2.675, 2) == 2.67] (the float 2.675 is below the decimal
    2.675), [round(0.125, 2) == 0.12] and [round(0.375, 2) == 0.38] (exact
    ties go to the even multiple), [round(-0.001, 2) == -0.0]. *)
Lemma round2_known_values :
  match B64.int_true_div 2675 1000, B64.int_true_div 267 100 with
  | Ok x, Ok y => B64.round2 x = y
  | _, _ => False
  end /\
  match B64.int_true_div 1 8, B64.int_true_div 12 100 with
  | Ok x, Ok y => B64.round2 x = y
  | _, _ => False
  end /\
  match B64.int_true_div 3 8, B64.int_true_div 38 100 with
  | Ok x, Ok y => B64.round2 x = y
  | _, _ => False
  end /\
  match B64.int_true_div (-1) 1000 with
  | Ok x => B64.round2 x = S754_zero true
  | _ => False
  end.
Proof. by vm_compute. Qed.

(** ** Python floats: a quotient within range is never an error *)

Lemma digits2_pos_size p : digits2_pos p = Pos.size p.
Proof. induction p; simpl; congruence. Qed.

Lemma Zdigits2_bound m k : 0 <= m < 2 ^ k -> Zdigits2 m <= k.
Proof.
  intros [Hm Hlt].
  assert (0 <= k). { destruct (Z.le_gt_cases 0 k); [done |]. rewrite Z.pow_neg_r in Hlt; lia. }
  destruct m as [|p|p]; simpl; [done | | lia].
  rewrite digits2_pos_size.
  pose proof (Pos.size_le p) as Hs.
  apply Pos2Z.pos_le_pos in Hs. rewrite Pos2Z.inj_pow in Hs.
  destruct (Z.le_gt_cases (Z.pos (Pos.size p)) k) as [|Hgt]; [done |].
  assert (Hk : 2 ^ (k + 1) <= 2 ^ Z.pos (Pos.size p)) by (apply Z.pow_le_mono_r; lia).
  replace (k + 1) with (Z.succ k) in Hk by lia.
  rewrite Z.pow_succ_r in Hk by done. lia.
Qed.

Lemma shr_1_m mrs : 0 <= shr_m mrs -> shr_m (shr_1 mrs) = shr_m mrs / 2.
Proof.
  destruct mrs as [m r s]. simpl. intros Hm.
  rewrite <- Z.div2_div.
  destruct m as [|[p|p|]|p]; simpl; (done || lia).
Qed.

Lemma iter_pos_shr_m p : forall mrs,
  0 <= shr_m mrs -> shr_m (iter_pos shr_1 p mrs) = shr_m mrs / 2 ^ Z.pos p.
Proof.
  induction p as [p IH | p IH |]; intros mrs Hm; simpl iter_pos.
  - assert (H1 : 0 <= shr_m (shr_1 mrs)).
    { rewrite shr_1_m by done. apply Z.div_pos; lia. }
    assert (H2 : 0 <= shr_m (iter_pos shr_1 p (shr_1 mrs))).
    { rewrite IH by done. apply Z.div_pos; [done | apply Z.pow_pos_nonneg; lia]. }
    rewrite IH, IH, shr_1_m by done.
    rewrite !Z.div_div by (try lia; apply Z.pow_pos_nonneg; lia).
    f_equal. replace (Z.pos p~1) with (1 + Z.pos p + Z.pos p) by lia.
    rewrite !Z.pow_add_r by lia. rewrite Z.pow_1_r. lia.
  - assert (H2 : 0 <= shr_m (iter_pos shr_1 p mrs)).
    { rewrite IH by done. apply Z.div_pos; [done | apply Z.pow_pos_nonneg; lia]. }
    rewrite IH, IH by done.
    rewrite !Z.div_div by (try lia; apply Z.pow_pos_nonneg; lia).
    f_equal. rewrite Pos2Z.inj_xO. rewrite <- Z.pow_add_r by lia. f_equal. lia.
  - rewrite shr_1_m by done. done.
Qed.

Lemma shr_m_of_loc m l : shr_m (shr_record_of_loc m l) = m.
Proof. by destruct l as [|[]]. Qed.

Lemma shr_fexp_bound m e l B mrs e1 :
  0 <= m < 2 ^ (B - e) -> -1074 <= B ->
  shr_fexp 53 1024 m e l = (mrs, e1) ->
  0 <= shr_m mrs < 2 ^ (B - e1) /\ e1 <= Z.max e (Z.max (B - 53) (-1074)).
Proof.
  intros [Hm Hlt] HB. unfold shr_fexp, shr.
  assert (Hd : Zdigits2 m <= B - e) by (by apply Zdigits2_bound).
  assert (Hf : fexp 53 1024 (Zdigits2 m + e) <= Z.max (B - 53) (-1074)).
  { unfold fexp, emin. lia. }
  destruct (fexp 53 1024 (Zdigits2 m + e) - e) as [|p|p] eqn:Hk;
    intros [= <- <-]; rewrite ?shr_m_of_loc; [lia | | lia].
  rewrite iter_pos_shr_m by (rewrite shr_m_of_loc; lia).
  rewrite shr_m_of_loc.
  assert (0 < 2 ^ Z.pos p) by (apply Z.pow_pos_nonneg; lia).
  split; [split |]; [by apply Z.div_pos | | lia].
  apply Z.div_lt_upper_bound; [done |].
  rewrite <- Z.pow_add_r by lia.
  by replace (Z.pos p + (B - (e + Z.pos p))) with (B - e) by lia.
Qed.

Lemma round_nearest_even_bound m l :
  m <= round_nearest_even m l <= m + 1.
Proof.
  unfold round_nearest_even. destruct l as [|[]]; try lia.
  destruct (Z.even m); lia.
Qed.

Lemma binary_round_aux_finite s m e l B :
  0 <= m < 2 ^ (B - e) -> -1074 <= B <= 1023 -> e <= 971 ->
  B64.is_finite (binary_round_aux 53 1024 s m e l) = true.
Proof.
  intros Hm HB He. unfold binary_round_aux.
  destruct (shr_fexp 53 1024 m e l) as [mrs1 e1] eqn:E1.
  apply (shr_fexp_bound _ _ _ B) in E1 as [Hm1 He1]; [| done | lia].
  pose proof (round_nearest_even_bound (shr_m mrs1) (loc_of_shr_record mrs1)) as Hr.
  set (m1 := round_nearest_even (shr_m mrs1) (loc_of_shr_record mrs1)) in *.
  destruct (shr_fexp 53 1024 m1 e1 loc_Exact) as [mrs2 e2] eqn:E2.
  apply (shr_fexp_bound _ _ _ (B + 1)) in E2 as [Hm2 He2]; [| | lia].
  - destruct (shr_m mrs2) as [|p|p]; [done | | lia].
    by rewrite (proj2 (Z.leb_le e2 (1024 - 53))) by lia.
  - assert (0 < 2 ^ (B - e1)) by lia.
    assert (0 <= B - e1).
    { destruct (Z.le_gt_cases 0 (B - e1)); [done |]. rewrite Z.pow_neg_r in *; lia. }
    replace (B + 1 - e1) with (Z.succ (B - e1)) by lia.
    rewrite Z.pow_succ_r by done. lia.
Qed.

Lemma SFdiv_finite_int sa pa sb pb B :
  Z.pos pa < 2 ^ B * Z.pos pb -> 0 <= B <= 1023 ->
  B64.is_finite (SFdiv 53 1024 (S754_finite sa pa 0) (S754_finite sb pb 0)) = true.
Proof.
  intros Hq HB. unfold SFdiv, SFdiv_core_binary.
  set (e' := Z.min _ _).
  assert (He' : e' <= 0) by (unfold e'; lia).
  set (m' := match 0 - 0 - e' with Z.pos _ => _ | 0 => _ | Z.neg _ => _ end).
  assert (Hm' : m' = Z.pos pa * 2 ^ (- e')).
  { unfold m'. replace (0 - 0 - e') with (- e') by lia.
    destruct (- e') as [|p|p] eqn:E; [lia | | lia].
    by rewrite Z.shiftl_mul_pow2. }
  pose proof (Z.div_eucl_eq m' (Z.pos pb)) as Hdiv.
  assert (Hquot : m' / Z.pos pb = fst (Z.div_eucl m' (Z.pos pb))) by done.
  destruct (Z.div_eucl m' (Z.pos pb)) as [q r]. simpl in Hquot. subst q.
  assert (H2 : 0 < 2 ^ (- e')) by (apply Z.pow_pos_nonneg; lia).
  apply (binary_round_aux_finite _ _ _ _ B); [| lia | lia].
  split.
  - apply Z.div_pos; lia.
  - apply Z.div_lt_upper_bound; [lia |].
    replace (B - e') with (B + - e') by lia.
    rewrite Hm', Z.pow_add_r by lia. nia.
Qed.

Lemma int_true_div_ok a b :
  b <> 0 -> Z.abs a < 2 ^ 1023 * Z.abs b ->
  exists q, B64.int_true_div a b = Ok q.
Proof.
  intros Hb Hq. unfold B64.int_true_div.
  rewrite (proj2 (Z.eqb_neq b 0) Hb).
  set (q := B64.div _ _).
  assert (Hfin : B64.is_finite q = true); [| rewrite Hfin; by exists q].
  unfold q, B64.div, B64.exact_int.
  destruct (Z.abs b) as [|pb|pb] eqn:Eb; [lia | | lia].
  destruct (Z.abs a) as [|pa|pa] eqn:Ea; [done | | lia].
  apply (SFdiv_finite_int _ _ _ _ 1023); [done | lia].
Qed.

(** ** Store lookups after an update *)

Lemma get_student_set_eq w s v : get_student (set_student s v w) s = v.
Proof. unfold get_student, set_student. simpl. apply lookup_total_insert_eq. Qed.

Lemma get_student_set_ne w s s' v :
  s <> s' -> get_student (set_student s v w) s' = get_student w s'.
Proof.
  intros Hne. unfold get_student, set_student. simpl.
  by apply lookup_total_insert_ne.
Qed.

Lemma get_classroom_set_eq w c v : get_classroom (set_classroom c v w) c = v.
Proof. unfold get_classroom, set_classroom. simpl. apply lookup_total_insert_eq. Qed.

Lemma in_list_true x l : in_list x l = true <-> x ∈ l.
Proof. unfold in_list. apply bool_decide_eq_true. Qed.

Lemma in_list_false x l : in_list x l = false <-> x ∉ l.
Proof. unfold in_list. apply bool_decide_eq_false. Qed.

(** ** Classroom *)

Lemma occupy_free w c :
  is_occupied (get_classroom w c) = false ->
  occupy c w =
    (Ok tt, set_classroom c (mkClassroom (number (get_classroom w c))
                                         (capacity (get_classroom w c)) true) w).
Proof. intros H. unfold occupy. by rewrite H. Qed.

Lemma occupy_occupied w c :
  is_occupied (get_classroom w c) = true -> occupy c w = (Raise StateError, w).
Proof. intros H. unfold occupy. by rewrite H. Qed.

Lemma vacate_occupied w c :
  is_occupied (get_classroom w c) = true ->
  vacate c w =
    (Ok tt, set_classroom c (mkClassroom (number (get_classroom w c))
                                         (capacity (get_classroom w c)) false) w).
Proof. intros H. unfold vacate. by rewrite H. Qed.

(** ** Student.take_exam *)

Lemma grade_in_range_dec (g : Z) :
  negb ((0 <=? g) && (g <=? 10)) = false <-> 0 <= g <= 10.
Proof.
  rewrite negb_false_iff, andb_true_iff, Z.leb_le, Z.leb_le. tauto.
Qed.

Lemma outside_curriculum_true w st subj :
  outside_curriculum w st subj = true <->
  exists c, curriculum st = Some c /\ subj ∉ required_subjects (get_curriculum_obj w c).
Proof.
  unfold outside_curriculum. destruct (curriculum st) as [c|].
  - rewrite negb_true_iff, in_list_false. split.
    + intros H. by exists c.
    + intros (c' & Hc & H). by inversion Hc; subst.
  - split; [done | by intros (c & Hc & _)].
Qed.

Lemma outside_curriculum_false w st subj :
  outside_curriculum w st subj = false <->
  forall c, curriculum st = Some c -> subj ∈ required_subjects (get_curriculum_obj w c).
Proof.
  unfold outside_curriculum. destruct (curriculum st) as [c|].
  - rewrite negb_false_iff, in_list_true. split.
    + intros H c' Hc. by inversion Hc; subst.
    + intros H. by apply H.
  - split; [by intros _ c Hc | done].
Qed.

Lemma take_exam_ok w s subj g :
  0 <= g <= 10 ->
  outside_curriculum w (get_student w s) subj = false ->
  take_exam s subj g w =
    (Ok tt, set_student s (with_record_book (get_student w s)
                             (<[subj := g]> (record_book (get_student w s)))) w).
Proof.
  intros Hg Hc. unfold take_exam.
  apply grade_in_range_dec in Hg. by rewrite Hg, Hc.
Qed.

Lemma take_exam_outside w s subj g :
  0 <= g <= 10 ->
  outside_curriculum w (get_student w s) subj = true ->
  take_exam s subj g w = (Raise EnrollmentError, w).
Proof.
  intros Hg Hc. unfold take_exam.
  apply grade_in_range_dec in Hg. by rewrite Hg, Hc.
Qed.

Lemma take_exam_bad_grade w s subj g :
  ~ (0 <= g <= 10) -> take_exam s subj g w = (Raise ValueError, w).
Proof.
  intros Hg. unfold take_exam.
  destruct (negb ((0 <=? g) && (g <=? 10))) eqn:E; [done |].
  by apply grade_in_range_dec in E.
Qed.

(** C3: [take_exam] rejects a grade outside 0..10 with [ValueError] (the
    specification's validation error); for a grade in range it rejects a
    subject outside the student's curriculum with [EnrollmentError]; in
    every other case it returns, and afterwards the record book holds
    exactly this grade for the subject, whatever it held before, every
    other subject is as before, and the book has one entry more only if the
    subject had none. In both failures the world is unchanged. *)
Theorem take_exam_spec (w : World) (s : loc) (subj : string) (g : Z) :
  (~ (0 <= g <= 10) -> take_exam s subj g w = (Raise ValueError, w)) /\
  (0 <= g <= 10 ->
   (exists c, curriculum (get_student w s) = Some c /\
              subj ∉ required_subjects (get_curriculum_obj w c)) ->
   take_exam s subj g w = (Raise EnrollmentError, w)) /\
  (0 <= g <= 10 ->
   (forall c, curriculum (get_student w s) = Some c ->
              subj ∈ required_subjects (get_curriculum_obj w c)) ->
   exists w',
     take_exam s subj g w = (Ok tt, w') /\
     record_book (get_student w' s) !! subj = Some g /\
     (forall other, other <> subj ->
        record_book (get_student w' s) !! other = record_book (get_student w s) !! other) /\
     size (record_book (get_student w' s)) =
       match record_book (get_student w s) !! subj with
       | Some _ => size (record_book (get_student w s))
       | None => S (size (record_book (get_student w s)))
       end /\
     (forall s', s' <> s -> get_student w' s' = get_student w s')).
Proof.
  split; [apply take_exam_bad_grade |]. split.
  - intros Hg Hc. apply take_exam_outside; [done |].
    by apply outside_curriculum_true.
  - intros Hg Hc. eexists. split.
    + apply take_exam_ok; [done |]. by apply outside_curriculum_false.
    + rewrite get_student_set_eq. simpl. repeat split.
      * apply lookup_insert_eq.
      * intros other Hne. by apply lookup_insert_ne.
      * destruct (record_book (get_student w s) !! subj) eqn:E.
        -- by apply map_size_insert_Some.
        -- by apply map_size_insert_None.
      * intros s' Hne. by apply get_student_set_ne.
Qed.

(** ** Exam.conduct *)

Lemma generated_grade_range w i : 1 <= generated_grade w i <= 10.
Proof.
  unfold generated_grade.
  pose proof (Z.mod_pos_bound (entropy (draws w + i)) 10). lia.
Qed.

Lemma generated_grade_valid w i : 0 <= generated_grade w i <= 10.
Proof. pose proof (generated_grade_range w i). lia. Qed.

Lemma generated_grades_range w n :
  Forall (fun g => 1 <= g <= 10) (generated_grades w n).
Proof.
  unfold generated_grades. apply Forall_fmap, Forall_forall.
  intros i _. apply generated_grade_range.
Qed.

Lemma length_generated_grades w n : length (generated_grades w n) = n.
Proof. unfold generated_grades. by rewrite length_fmap, length_seq. Qed.

Lemma randint_1_10 w : randint 1 10 w = (Ok (generated_grade w 0), next_draw w).
Proof. unfold randint, generated_grade. by rewrite Nat.add_0_r. Qed.

Lemma generated_grades_S w w' n :
  draws w' = S (draws w) ->
  generated_grades w (S n) = generated_grade w 0 :: generated_grades w' n.
Proof.
  intros Hd. unfold generated_grades. rewrite <- cons_seq, <- fmap_S_seq.
  rewrite fmap_cons, <- list_fmap_compose. f_equal.
  apply list_fmap_ext. intros _ i _. unfold generated_grade. simpl.
  rewrite Hd. do 3 f_equal. lia.
Qed.

Lemma failed_students_cons s roster g gs :
  failed_students (s :: roster) (g :: gs) =
    if g <? 4 then s :: failed_students roster gs else failed_students roster gs.
Proof.
  unfold failed_students. simpl. rewrite filter_cons. simpl.
  destruct (Z.ltb_spec g 4); case_decide; (done || lia).
Qed.

(** Writing into a record book changes neither the student's curriculum
    nor any curriculum, so who may sit the exam stays the same. *)
Lemma outside_curriculum_recorded w s rb s' subj :
  outside_curriculum (set_student s (with_record_book (get_student w s) rb) w)
    (get_student (set_student s (with_record_book (get_student w s) rb) w) s') subj
  = outside_curriculum w (get_student w s') subj.
Proof.
  destruct (decide (s = s')) as [<-|Hne].
  - by rewrite get_student_set_eq.
  - by rewrite get_student_set_ne.
Qed.

Lemma conduct_loop_ok e roster : forall w acc,
  Forall (fun s => outside_curriculum w (get_student w s) (subject e) = false) roster ->
  conduct_loop e roster acc w =
    (Ok (acc ++ failed_students roster (generated_grades w (length roster))),
     graded_world w (subject e) roster).
Proof.
  induction roster as [|s rest IH]; intros w acc Hall.
  - simpl. unfold ret, graded_world, failed_students. simpl.
    rewrite app_nil_r, Nat.add_0_r. by destruct w.
  - apply Forall_cons in Hall as [Hs Hrest]. simpl conduct_loop.
    rewrite (bind_ok _ _ _ _ _ (randint_1_10 w)).
    set (g := generated_grade w 0).
    set (w1 := next_draw w).
    set (w2 := set_student s (with_record_book (get_student w1 s)
                                (<[subject e := g]> (record_book (get_student w1 s)))) w1).
    assert (Hstep : evaluate_student (teacher e) s (subject e) g w1 = (Ok tt, w2)).
    { unfold evaluate_student. apply take_exam_ok; [apply generated_grade_valid | done]. }
    rewrite (bind_ok _ _ _ _ _ Hstep).
    assert (Hrest' : Forall (fun s' => outside_curriculum w2 (get_student w2 s') (subject e) = false) rest).
    { eapply Forall_impl; [exact Hrest |]. intros s' Hs'. cbv beta in Hs'.
      unfold w2. by rewrite outside_curriculum_recorded. }
    simpl length.
    rewrite (generated_grades_S w w2 (length rest)) by done.
    rewrite failed_students_cons. fold g.
    assert (Hw : graded_world w (subject e) (s :: rest) = graded_world w2 (subject e) rest).
    { unfold graded_world. simpl length.
      rewrite (generated_grades_S w w2 (length rest)) by done.
      simpl. f_equal. lia. }
    rewrite Hw.
    destruct (g <? 4).
    + rewrite (IH w2 (acc ++ [s]) Hrest'). by rewrite <- app_assoc.
    + by rewrite (IH w2 acc Hrest').
Qed.

(** A student who may not sit the exam stops the loop with
    [EnrollmentError]; the loop never touches a classroom. *)
Lemma conduct_loop_raises e roster : forall w acc,
  Exists (fun s => outside_curriculum w (get_student w s) (subject e) = true) roster ->
  exists w', conduct_loop e roster acc w = (Raise EnrollmentError, w') /\
             classroom_heap w' = classroom_heap w.
Proof.
  induction roster as [|s rest IH]; intros w acc Hex.
  - by apply Exists_nil in Hex.
  - simpl conduct_loop.
    rewrite (bind_ok _ _ _ _ _ (randint_1_10 w)).
    set (g := generated_grade w 0).
    set (w1 := next_draw w).
    destruct (outside_curriculum w (get_student w s) (subject e)) eqn:Hs.
    + exists w1. split; [| done].
      apply bind_raise. unfold evaluate_student.
      apply take_exam_outside; [apply generated_grade_valid | done].
    + apply Exists_cons in Hex as [Hex | Hex]; [congruence |].
      set (w2 := set_student s (with_record_book (get_student w1 s)
                                  (<[subject e := g]> (record_book (get_student w1 s)))) w1).
      assert (Hstep : evaluate_student (teacher e) s (subject e) g w1 = (Ok tt, w2)).
      { unfold evaluate_student. apply take_exam_ok; [apply generated_grade_valid | done]. }
      rewrite (bind_ok _ _ _ _ _ Hstep).
      assert (Hex' : Exists (fun s' => outside_curriculum w2 (get_student w2 s') (subject e) = true) rest).
      { eapply Exists_impl; [exact Hex |]. intros s' Hs'. cbv beta in Hs'.
        unfold w2. by rewrite outside_curriculum_recorded. }
      destruct (g <? 4).
      * destruct (IH w2 (acc ++ [s]) Hex') as (w' & Hrun & Hroom). by exists w'.
      * destruct (IH w2 acc Hex') as (w' & Hrun & Hroom). by exists w'.
Qed.

Lemma foldl_record_other subj l : forall h s,
  s ∉ l.*1 -> foldl (record_grade subj) h l !!! s = h !!! s.
Proof.
  induction l as [|[s0 g0] l IH]; intros h s Hs; [done |].
  simpl in *. apply not_elem_of_cons in Hs as [Hne Hs].
  rewrite IH by done. unfold record_grade. simpl.
  by apply lookup_total_insert_ne.
Qed.

Lemma fst_zip_subseteq (roster : list loc) (gs : list Z) s :
  s ∈ (zip roster gs).*1 -> s ∈ roster.
Proof.
  intros Hs. apply list_elem_of_fmap in Hs as ([s' g] & -> & Hin).
  by apply elem_of_zip_l in Hin.
Qed.

(** After all grades are written, a student's record book holds, for the
    exam's subject, the grade of the student's last place in the roster. *)
Lemma foldl_record_last subj roster : forall gs h i s g,
  roster !! i = Some s -> gs !! i = Some g -> s ∉ drop (S i) roster ->
  record_book (foldl (record_grade subj) h (zip roster gs) !!! s) !! subj = Some g.
Proof.
  induction roster as [|s0 rest IH]; intros gs h i s g Hs Hg Hlast; [done |].
  destruct gs as [|g0 gs]; [done |].
  destruct i as [|i]; simpl in *.
  - inversion Hs; inversion Hg; subst.
    rewrite foldl_record_other.
    + unfold record_grade. simpl. rewrite lookup_total_insert_eq. simpl.
      apply lookup_insert_eq.
    + intros Hin. apply Hlast. rewrite drop_0. by eapply fst_zip_subseteq.
  - by eapply IH.
Qed.

Lemma foldl_record_dom subj l : forall h,
  dom h ⊆ dom (foldl (record_grade subj) h l).
Proof.
  induction l as [|p l IH]; intros h; [done |].
  simpl. etrans; [| apply IH]. unfold record_grade.
  rewrite dom_insert. apply union_subseteq_r.
Qed.

Lemma elem_of_failed_students roster gs s :
  s ∈ failed_students roster gs <->
  exists i g, roster !! i = Some s /\ gs !! i = Some g /\ g < 4.
Proof.
  unfold failed_students. rewrite list_elem_of_fmap. split.
  - intros ([s' g] & -> & Hin). apply list_elem_of_filter in Hin as [Hlt Hin].
    apply list_elem_of_lookup in Hin as [i Hi].
    apply lookup_zip_with_Some in Hi as (x & y & Heq & Hx & Hy).
    simplify_eq/=. eauto.
  - intros (i & g & Hs & Hg & Hlt). exists (s, g). split; [done |].
    apply list_elem_of_filter. split; [done |].
    apply list_elem_of_lookup. exists i.
    apply lookup_zip_with_Some. by exists s, g.
Qed.

Lemma failed_students_sublist roster gs :
  failed_students roster gs `sublist_of` roster.
Proof.
  unfold failed_students.
  revert gs. induction roster as [|s rest IH]; intros gs; [done |].
  destruct gs as [|g gs]; simpl; [apply sublist_nil_l |].
  rewrite filter_cons. case_decide; simpl.
  - apply sublist_skip, IH.
  - apply sublist_cons, IH.
Qed.

Lemma conduct_state_error w e :
  is_occupied (get_classroom w (classroom e)) = true ->
  conduct e w = (Raise StateError, w).
Proof.
  intros Hocc. unfold conduct. apply bind_raise. by apply occupy_occupied.
Qed.

Lemma conduct_enrollment_error w e :
  is_occupied (get_classroom w (classroom e)) = false ->
  Exists (fun s => outside_curriculum w (get_student w s) (subject e) = true)
         (registered_students e) ->
  exists w',
    conduct e w = (Raise EnrollmentError, w') /\
    is_occupied (get_classroom w' (classroom e)) = true.
Proof.
  intros Hfree Hex.
  set (c := classroom e).
  set (w1 := set_classroom c (mkClassroom (number (get_classroom w c))
                                          (capacity (get_classroom w c)) true) w).
  destruct (conduct_loop_raises e (registered_students e) w1 [] Hex)
    as (w' & Hrun & Hroom).
  exists w'. split.
  - unfold conduct.
    rewrite (bind_ok _ _ _ _ _ (occupy_free w c Hfree)). fold w1.
    by apply bind_raise.
  - unfold get_classroom. rewrite Hroom. unfold w1. simpl.
    by rewrite lookup_total_insert_eq.
Qed.

Lemma conduct_ok w e :
  is_occupied (get_classroom w (classroom e)) = false ->
  Forall (fun s => outside_curriculum w (get_student w s) (subject e) = false)
         (registered_students e) ->
  conduct e w =
    (Ok (failed_students (registered_students e)
           (generated_grades w (length (registered_students e)))),
     conducted_world w e).
Proof.
  intros Hfree Hall.
  set (c := classroom e).
  set (w1 := set_classroom c (mkClassroom (number (get_classroom w c))
                                          (capacity (get_classroom w c)) true) w).
  set (w2 := graded_world w1 (subject e) (registered_students e)).
  unfold conduct.
  rewrite (bind_ok _ _ _ _ _ (occupy_free w c Hfree)). fold w1.
  rewrite (bind_ok _ _ _ _ _ (conduct_loop_ok e (registered_students e) w1 [] Hall)).
  fold w2.
  assert (Hocc : is_occupied (get_classroom w2 c) = true).
  { unfold w2, graded_world, get_classroom. simpl. unfold w1. simpl.
    by rewrite lookup_total_insert_eq. }
  by rewrite (bind_ok _ _ _ _ _ (vacate_occupied w2 c Hocc)).
Qed.

Lemma conducted_world_free w e :
  is_occupied (get_classroom (conducted_world w e) (classroom e)) = false.
Proof.
  unfold conducted_world, get_classroom. simpl. by rewrite lookup_total_insert_eq.
Qed.

Lemma all_or_some (f : loc -> bool) (l : list loc) :
  Forall (fun s => f s = false) l \/ Exists (fun s => f s = true) l.
Proof.
  induction l as [|s l [IH|IH]].
  - left. constructor.
  - destruct (f s) eqn:E.
    + right. by apply Exists_cons_hd.
    + left. by constructor.
  - right. by apply Exists_cons_tl.
Qed.

(** [conduct] returns only from a free classroom with students who may
    all sit the subject. *)
Lemma conduct_ok_inv w e l w' :
  conduct e w = (Ok l, w') ->
  is_occupied (get_classroom w (classroom e)) = false /\
  Forall (fun s => outside_curriculum w (get_student w s) (subject e) = false)
         (registered_students e).
Proof.
  intros Hrun.
  destruct (is_occupied (get_classroom w (classroom e))) eqn:Hocc.
  { rewrite (conduct_state_error w e Hocc) in Hrun. discriminate. }
  split; [done |].
  destruct (all_or_some (fun s => outside_curriculum w (get_student w s) (subject e))
                        (registered_students e)) as [Hall | Hex]; [done |].
  destruct (conduct_enrollment_error w e Hocc Hex) as (w'' & Hraise & _).
  rewrite Hraise in Hrun. discriminate.
Qed.

(** C5: on an occupied classroom [conduct] raises [StateError] at once:
    the world it leaves is the world it found, so no record book changed,
    no random value was taken and the classroom is still occupied. *)
Theorem conduct_occupied_classroom (w : World) (e : Exam) :
  is_occupied (get_classroom w (classroom e)) = true ->
  exists w',
    conduct e w = (Raise StateError, w') /\
    w' = w /\
    (forall s, record_book (get_student w' s) = record_book (get_student w s)) /\
    draws w' = draws w /\
    is_occupied (get_classroom w' (classroom e)) = true.
Proof.
  intros Hocc. exists w. split; [| done]. by apply conduct_state_error.
Qed.

(** C4: when the classroom is free and every registered student may sit
    the subject, [conduct] returns, and whenever [conduct] returns, it
    returns exactly the students whose generated grade is below 4, in
    roster order. Every generated grade (each between 1 and 10) was
    written through [evaluate_student], in roster order, so a student's
    record book ends with the grade of the student's last place in the
    roster; the university's collections are what they were and no
    student object is gone. *)
Theorem conduct_returns_failed_students (w : World) (e : Exam) :
  let roster := registered_students e in
  let gs := generated_grades w (length roster) in
  (is_occupied (get_classroom w (classroom e)) = false ->
   Forall (fun s => outside_curriculum w (get_student w s) (subject e) = false) roster ->
   exists w', conduct e w = (Ok (failed_students roster gs), w')) /\
  (forall failed w',
     conduct e w = (Ok failed, w') ->
     failed = failed_students roster gs /\
     (forall s, s ∈ failed <->
                exists i g, roster !! i = Some s /\ gs !! i = Some g /\ g < 4) /\
     failed `sublist_of` roster /\
     Forall (fun g => 1 <= g <= 10) gs /\
     student_heap w' = foldl (record_grade (subject e)) (student_heap w) (zip roster gs) /\
     (forall i s g, roster !! i = Some s -> gs !! i = Some g ->
                    s ∉ drop (S i) roster ->
                    record_book (get_student w' s) !! subject e = Some g) /\
     uni w' = uni w /\
     dom (student_heap w) ⊆ dom (student_heap w')).
Proof.
  intros roster gs. split.
  - intros Hfree Hall. eexists. by apply conduct_ok.
  - intros failed w' Hrun.
    destruct (conduct_ok_inv w e failed w' Hrun) as [Hfree Hall].
    rewrite (conduct_ok w e Hfree Hall) in Hrun.
    injection Hrun as <- <-. fold roster gs.
    split; [done |].
    split; [apply elem_of_failed_students |].
    split; [apply failed_students_sublist |].
    split; [apply generated_grades_range |].
    split; [done |].
    split; [| split; [done | apply foldl_record_dom]].
    intros i s g Hs Hg Hlast. unfold get_student. simpl.
    by eapply foldl_record_last.
Qed.

(** C1, as the code behaves: when the classroom is free and some
    registered student may not sit the subject, [conduct] ends with
    [EnrollmentError] and the classroom is left occupied; nothing releases
    it on that path. *)
Theorem conduct_raise_leaves_classroom_occupied (w : World) (e : Exam) :
  is_occupied (get_classroom w (classroom e)) = false ->
  Exists (fun s => outside_curriculum w (get_student w s) (subject e) = true)
         (registered_students e) ->
  exists w',
    conduct e w = (Raise EnrollmentError, w') /\
    is_occupied (get_classroom w' (classroom e)) = true.
Proof. apply conduct_enrollment_error. Qed.

(** ** Library *)

Lemma get_inventory_set_student s v w :
  get_inventory (set_student s v w) = get_inventory w.
Proof. done. Qed.

Lemma get_inventory_set_inventory inv w :
  get_inventory (set_inventory inv w) = inv.
Proof. done. Qed.

Lemma get_student_set_inventory inv w s :
  get_student (set_inventory inv w) s = get_student w s.
Proof. done. Qed.

Lemma find_title_none t inv :
  Forall (fun e : Book * Z => title e.1 <> t) inv -> find_title t inv = None.
Proof.
  induction 1 as [|[b n] inv Hb _ IH]; [done |].
  simpl in *. by rewrite bool_decide_eq_false_2.
Qed.

(** The first entry with the title is the one the three dictionary
    operations of [lend_book] work on. *)
Lemma first_title_entry t pre b n post :
  Forall (fun e : Book * Z => title e.1 <> t) pre -> title b = t ->
  find_title t (pre ++ (b, n) :: post) = Some b /\
  lookup_count b (pre ++ (b, n) :: post) = Some n /\
  forall k, set_count b k (pre ++ (b, n) :: post) = pre ++ (b, k) :: post.
Proof.
  intros Hpre Hb. induction Hpre as [|[b0 n0] pre Hb0 _ IH]; simpl in *.
  - rewrite !bool_decide_eq_true_2 by done. done.
  - assert (b0 <> b) by (intros ->; done).
    rewrite !bool_decide_eq_false_2 by done.
    destruct IH as (-> & -> & Hset). repeat split. intros k. by rewrite Hset.
Qed.

Lemma holds_book_true st b : holds_book st b = true <-> b ∈ borrowed_books st.
Proof. unfold holds_book. apply bool_decide_eq_true. Qed.

Lemma holds_book_false st b : holds_book st b = false <-> b ∉ borrowed_books st.
Proof. unfold holds_book. apply bool_decide_eq_false. Qed.

(** C2: [lend_book] fails with [ResourceError], leaving the world as it
    was, when no inventory book has the title, when the first entry with
    the title has a count of 0 or less, and when the student already holds
    that book; otherwise it returns, the book is appended to the student's
    borrowed list and that entry's count is one less, every other entry
    and every other student being as before. *)
Theorem lend_book_spec (w : World) (student : loc) (book_title : string) :
  (Forall (fun e : Book * Z => title e.1 <> book_title) (get_inventory w) ->
   lend_book student book_title w = (Raise ResourceError, w)) /\
  (forall pre b n post,
     get_inventory w = pre ++ (b, n) :: post ->
     Forall (fun e : Book * Z => title e.1 <> book_title) pre ->
     title b = book_title ->
     (n <= 0 -> lend_book student book_title w = (Raise ResourceError, w)) /\
     (0 < n -> b ∈ borrowed_books (get_student w student) ->
      lend_book student book_title w = (Raise ResourceError, w)) /\
     (0 < n -> b ∉ borrowed_books (get_student w student) ->
      exists w',
        lend_book student book_title w = (Ok tt, w') /\
        borrowed_books (get_student w' student) =
          borrowed_books (get_student w student) ++ [b] /\
        get_inventory w' = pre ++ (b, n - 1) :: post /\
        lookup_count b (get_inventory w') = Some (n - 1) /\
        (forall s', s' <> student -> get_student w' s' = get_student w s'))).
Proof.
  split.
  - intros Hnone. unfold lend_book. by rewrite find_title_none.
  - intros pre b n post Hinv Hpre Hb.
    destruct (first_title_entry book_title pre b n post Hpre Hb)
      as (Hfind & Hcount & Hset).
    assert (Hc : count_of b (get_inventory w) = n).
    { unfold count_of. by rewrite Hinv, Hcount. }
    split; [| split].
    + intros Hn. unfold lend_book. rewrite Hinv, Hfind, <- Hinv, Hc.
      by rewrite (proj2 (Z.leb_le n 0) Hn).
    + intros Hn Hheld. unfold lend_book. rewrite Hinv, Hfind, <- Hinv, Hc.
      rewrite (proj2 (Z.leb_gt n 0) Hn).
      apply bind_raise. unfold borrow_book.
      by rewrite (proj2 (holds_book_true _ _) Hheld).
    + intros Hn Hfree.
      set (st := get_student w student).
      exists (set_inventory (pre ++ (b, n - 1) :: post)
                (set_student student (with_borrowed st (borrowed_books st ++ [b])) w)).
      split.
      * unfold lend_book. rewrite Hinv, Hfind, <- Hinv, Hc.
        rewrite (proj2 (Z.leb_gt n 0) Hn).
        unfold bind, borrow_book. fold st.
        rewrite (proj2 (holds_book_false st b) Hfree).
        unfold ret, bump_count. rewrite get_inventory_set_student, Hc.
        rewrite Hinv, Hset. by replace (n + -1) with (n - 1) by lia.
      * rewrite get_student_set_inventory, get_student_set_eq.
        rewrite get_inventory_set_inventory.
        destruct (first_title_entry book_title pre b (n - 1) post Hpre Hb)
          as (_ & Hcount' & _).
        repeat split; [done |].
        intros s' Hne. rewrite get_student_set_inventory.
        by apply get_student_set_ne.
Qed.

Lemma lookup_count_nonneg b inv n :
  Forall (fun e : Book * Z => 0 <= e.2) inv -> lookup_count b inv = Some n -> 0 <= n.
Proof.
  induction 1 as [|[b0 n0] inv Hn0 _ IH]; [done |].
  simpl in *. case_bool_decide; [by intros [= <-] | done].
Qed.

Lemma count_of_nonneg b inv :
  Forall (fun e : Book * Z => 0 <= e.2) inv -> 0 <= count_of b inv.
Proof.
  intros Hinv. unfold count_of.
  destruct (lookup_count b inv) as [n|] eqn:E; simpl; [| lia].
  by eapply lookup_count_nonneg.
Qed.

Lemma set_count_nonneg b n inv :
  0 <= n -> Forall (fun e : Book * Z => 0 <= e.2) inv ->
  Forall (fun e : Book * Z => 0 <= e.2) (set_count b n inv).
Proof.
  intros Hn. induction 1 as [|[b0 n0] inv Hn0 Hinv IH]; simpl.
  - by repeat constructor.
  - case_bool_decide; by constructor.
Qed.

Lemma add_book_nonneg b q w :
  0 <= q -> counts_nonnegative w -> counts_nonnegative (add_book b q w).2.
Proof.
  intros Hq Hw. unfold add_book, counts_nonnegative in *.
  destruct (lookup_count b (get_inventory w)) as [n|] eqn:E; simpl.
  - apply set_count_nonneg; [| done].
    pose proof (lookup_count_nonneg _ _ _ Hw E). lia.
  - by apply set_count_nonneg.
Qed.

Lemma lend_book_nonneg s t w :
  counts_nonnegative w -> counts_nonnegative (lend_book s t w).2.
Proof.
  intros Hw. unfold lend_book.
  destruct (find_title t (get_inventory w)) as [b|]; [| done].
  destruct (Z.leb_spec (count_of b (get_inventory w)) 0) as [|Hpos]; [done |].
  unfold bind, borrow_book.
  destruct (holds_book (get_student w s) b); [done |].
  simpl. unfold counts_nonnegative, get_inventory in *. simpl.
  apply set_count_nonneg; [lia | done].
Qed.

Lemma accept_return_nonneg s t w :
  counts_nonnegative w -> counts_nonnegative (accept_return s t w).2.
Proof.
  intros Hw. unfold accept_return.
  destruct (find_title t (get_inventory w)) as [b|]; [| done].
  destruct (holds_book (get_student w s) b) eqn:Hheld; [| done].
  simpl. unfold bind, return_book. rewrite Hheld.
  simpl. unfold counts_nonnegative, get_inventory in *. simpl.
  apply set_count_nonneg; [| done].
  pose proof (count_of_nonneg b _ Hw). lia.
Qed.

(** C6, amended: from an empty inventory, after any sequence of
    [add_book], [lend_book] and [accept_return] calls in which every
    [add_book] quantity is 0 or more, every count in the inventory is 0
    or more. *)
Theorem library_counts_nonnegative (calls : list library_call) (w : World) :
  get_inventory w = [] ->
  Forall adds_nonnegative calls ->
  counts_nonnegative (after_calls calls w).
Proof.
  intros Hempty Hcalls.
  assert (Hw : counts_nonnegative w).
  { unfold counts_nonnegative. rewrite Hempty. constructor. }
  clear Hempty. revert w Hw.
  induction Hcalls as [|c calls Hc _ IH]; intros w Hw; [done |].
  simpl. apply IH.
  destruct c as [b q | s t | s t]; simpl in *.
  - by apply add_book_nonneg.
  - by apply lend_book_nonneg.
  - by apply accept_return_nonneg.
Qed.

(** ** University *)

Lemma get_curriculum_none w cname :
  Forall (fun c => lower (specialty_name (get_curriculum_obj w c)) <> lower cname)
         (curriculums (uni w)) ->
  get_curriculum w cname = None.
Proof.
  unfold get_curriculum.
  induction 1 as [|c l Hc _ IH]; [done |].
  simpl. by rewrite bool_decide_eq_false_2.
Qed.

Lemma get_curriculum_first w cname pre c post :
  curriculums (uni w) = pre ++ c :: post ->
  Forall (fun c' => lower (specialty_name (get_curriculum_obj w c')) <> lower cname) pre ->
  lower (specialty_name (get_curriculum_obj w c)) = lower cname ->
  get_curriculum w cname = Some c.
Proof.
  unfold get_curriculum. intros -> Hpre Hc.
  induction Hpre as [|c' pre Hc' _ IH]; simpl.
  - by rewrite bool_decide_eq_true_2.
  - by rewrite bool_decide_eq_false_2.
Qed.

(** C8: [enroll_student] takes the first curriculum whose name equals the
    given one after lowering both. Without such a curriculum it raises
    [EnrollmentError] and the world, the student list included, is as
    before. With one it returns a new student object, appended once at the
    end of the student list, whose curriculum is that very curriculum
    object; nothing else changes. *)
Theorem enroll_student_spec (w : World) (full_name : string) (age : Z)
    (curriculum_name : string) :
  (Forall (fun c => lower (specialty_name (get_curriculum_obj w c))
                    <> lower curriculum_name)
          (curriculums (uni w)) ->
   enroll_student full_name age curriculum_name w = (Raise EnrollmentError, w)) /\
  (forall pre c post,
     curriculums (uni w) = pre ++ c :: post ->
     Forall (fun c' => lower (specialty_name (get_curriculum_obj w c'))
                       <> lower curriculum_name) pre ->
     lower (specialty_name (get_curriculum_obj w c)) = lower curriculum_name ->
     exists r w',
       enroll_student full_name age curriculum_name w = (Ok r, w') /\
       students (uni w') = students (uni w) ++ [r] /\
       student_heap w !! r = None /\
       get_student w' r =
         mkStudent full_name age (uuid4 (uuids w)) (Some c) B64.zero ∅ [] /\
       curriculum (get_student w' r) = Some c /\
       (forall s, s <> r -> get_student w' s = get_student w s) /\
       curriculum_heap w' = curriculum_heap w /\
       curriculums (uni w') = curriculums (uni w)).
Proof.
  split.
  - intros Hnone. unfold enroll_student. by rewrite get_curriculum_none.
  - intros pre c post Hcs Hpre Hc.
    eexists _, _. split.
    + unfold enroll_student.
      rewrite (get_curriculum_first w curriculum_name pre c post Hcs Hpre Hc).
      reflexivity.
    + unfold get_student. simpl. rewrite lookup_total_insert_eq.
      repeat split.
      * apply not_elem_of_dom, is_fresh.
      * intros s Hne. by apply lookup_total_insert_ne.
Qed.

(** C10: [create_exam] only asks that the subject is among the teacher's
    subjects. If it is not, it raises [EnrollmentError] and no exam is
    registered; if it is, then for every classroom and every list of
    students it returns the exam made of its four arguments and the
    current time, appended to the university's exams, and changes nothing
    else. *)
Theorem create_exam_spec (w : World) (subj : string) (tchr : Teacher)
    (room : loc) (roster : list loc) :
  (subj ∉ subjects tchr ->
   create_exam subj tchr room roster w = (Raise EnrollmentError, w)) /\
  (subj ∈ subjects tchr ->
   exists ex w',
     create_exam subj tchr room roster w = (Ok ex, w') /\
     ex = mkExam subj (now (ticks w)) tchr room roster /\
     exams (uni w') = exams (uni w) ++ [ex] /\
     students (uni w') = students (uni w) /\
     classrooms (uni w') = classrooms (uni w) /\
     student_heap w' = student_heap w /\
     classroom_heap w' = classroom_heap w /\
     curriculum_heap w' = curriculum_heap w).
Proof.
  split.
  - intros Hsubj. unfold create_exam.
    by rewrite (proj2 (in_list_false _ _) Hsubj).
  - intros Hsubj. eexists _, _. split.
    + unfold create_exam. rewrite (proj2 (in_list_true _ _) Hsubj). reflexivity.
    + done.
Qed.

(** ** Student.average_score *)

Lemma sum_Permutation l1 l2 : l1 ≡ₚ l2 -> sum l1 = sum l2.
Proof.
  unfold sum. induction 1 as [| x l1 l2 _ IH | x y l | l1 l2 l3 _ IH1 _ IH2]; simpl.
  - done.
  - by rewrite IH.
  - lia.
  - by rewrite IH1.
Qed.

(** The grades read from a record book built from distinct subjects are
    the grades put in, up to their order. *)
Lemma grades_of_list (s : Student) (l : list (string * Z)) :
  NoDup l.*1 -> record_book s = list_to_map l ->
  grades s ≡ₚ l.*2 /\ size (record_book s) = length l.
Proof.
  intros Hnd Hrb. unfold grades. rewrite Hrb. split.
  - by rewrite map_to_list_to_map.
  - by apply map_size_list_to_map.
Qed.

Lemma sum_in_range l :
  Forall (fun g => 0 <= g <= 10) l -> 0 <= sum l <= 10 * Z.of_nat (length l).
Proof.
  unfold sum. induction 1 as [|g l Hg _ IH]; simpl; [lia |].
  rewrite Nat2Z.inj_succ. lia.
Qed.

(** With grades in range the average is a float, never an exception. *)
Lemma average_score_ok st :
  grades_in_range st -> exists avg, average_score st = Ok avg.
Proof.
  intros Hrange. unfold average_score.
  case_bool_decide as Hempty; [by eexists |].
  assert (Hsize : size (record_book st) <> 0%nat).
  { intros Hz. by apply map_size_empty_iff in Hz. }
  assert (Hsum : 0 <= sum (grades st) <= 10 * Z.of_nat (size (record_book st))).
  { rewrite <- length_map_to_list, <- (length_fmap snd).
    apply sum_in_range, Forall_fmap, Forall_forall.
    intros [subj g] Hin. apply elem_of_map_to_list in Hin.
    by apply (Hrange subj g). }
  apply int_true_div_ok; [lia |].
  assert (2 ^ 4 <= 2 ^ 1023) by (apply Z.pow_le_mono_r; lia).
  change (2 ^ 4) with 16 in *. lia.
Qed.

(** [take_exam] keeps the grades of every student in range. *)
Lemma take_exam_keeps_grades_in_range w s subj g s' :
  (forall r, grades_in_range (get_student w r)) ->
  grades_in_range (get_student (take_exam s subj g w).2 s').
Proof.
  intros Hall. unfold take_exam.
  destruct (negb ((0 <=? g) && (g <=? 10))) eqn:Hg; [apply Hall |].
  apply grade_in_range_dec in Hg.
  destruct (outside_curriculum w (get_student w s) subj); [apply Hall |].
  simpl. destruct (decide (s = s')) as [<-|Hne].
  - rewrite get_student_set_eq. unfold grades_in_range. simpl.
    apply map_Forall_insert_2; [done | apply Hall].
  - rewrite get_student_set_ne by done. apply Hall.
Qed.

(** C9: [average_score] is exactly 0.0 for an empty record book; for a
    record book holding the grades of a non-empty list of distinct
    subjects it is the arithmetic mean of these grades (their exact sum
    divided by their number, as one correctly rounded float), and it is a
    float, not an exception, whenever the grades are in range; for the two
    grades 8 and 10 it is exactly 9.0. *)
Theorem average_score_spec (s : Student) :
  (record_book s = ∅ -> average_score s = Ok B64.zero) /\
  (forall l : list (string * Z),
     l <> [] -> NoDup l.*1 -> record_book s = list_to_map l ->
     average_score s = arithmetic_mean l.*2) /\
  (grades_in_range s -> exists avg, average_score s = Ok avg) /\
  (forall a b : string,
     a <> b -> record_book s = {[a := 8; b := 10]} ->
     average_score s = Ok (B64.of_Z 9) /\
     B64.of_Z 9 = S754_finite false (9 * 2 ^ 49) (-49)).
Proof.
  assert (Hmean : forall l : list (string * Z),
             l <> [] -> NoDup l.*1 -> record_book s = list_to_map l ->
             average_score s = arithmetic_mean l.*2).
  { intros l Hne Hnd Hrb.
    destruct (grades_of_list s l Hnd Hrb) as [Hperm Hsize].
    unfold average_score, arithmetic_mean.
    rewrite bool_decide_eq_false_2.
    - by rewrite (sum_Permutation _ _ Hperm), Hsize, length_fmap.
    - intros Hempty. apply map_size_empty_iff in Hempty.
      rewrite Hsize in Hempty. by destruct l. }
  split; [| split; [exact Hmean | split; [apply average_score_ok |]]].
  - intros Hrb. unfold average_score. by rewrite bool_decide_eq_true_2.
  - intros a b Hab Hrb. split; [| by vm_compute].
    rewrite (Hmean [(a, 8); (b, 10)]).
    + by vm_compute.
    + done.
    + simpl. apply NoDup_cons. split; [| apply NoDup_singleton].
      by apply not_elem_of_cons; split; [| apply not_elem_of_nil].
    + done.
Qed.

(** ** ScholarshipDepartment.calculate_and_assign *)

Lemma average_score_with_scholarship st a :
  average_score (with_scholarship st a) = average_score st.
Proof. done. Qed.

Lemma average_score_after_assign w s0 a s :
  average_score (get_student (set_student s0 (with_scholarship (get_student w s0) a) w) s)
  = average_score (get_student w s).
Proof.
  destruct (decide (s0 = s)) as [<-|Hne].
  - by rewrite get_student_set_eq.
  - by rewrite get_student_set_ne.
Qed.

(** One turn of the loop: both branches give the student the amount of
    the specification's formula. *)
Lemma calculate_step d s rest count w avg :
  average_score (get_student w s) = Ok avg ->
  exists count',
    calculate_and_assign_loop d (s :: rest) count w =
    calculate_and_assign_loop d rest count'
      (set_student s (with_scholarship (get_student w s) (scholarship_formula d avg)) w).
Proof.
  intros Havg. simpl.
  assert (Hread : read_average_score s w = (Ok avg, w)).
  { unfold read_average_score. by rewrite Havg. }
  rewrite (bind_ok _ _ _ _ _ Hread). unfold scholarship_formula.
  destruct (B64.geb avg (min_average_score d)); eexists; reflexivity.
Qed.

Lemma calculate_and_assign_loop_spec d l : forall w count,
  Forall (fun s => is_ok (average_score (get_student w s)) = true) l ->
  exists w' count',
    calculate_and_assign_loop d l count w = (Ok count', w') /\
    (forall s, s ∈ l ->
       exists avg, average_score (get_student w s) = Ok avg /\
                   get_student w' s =
                     with_scholarship (get_student w s) (scholarship_formula d avg)) /\
    (forall s, s ∉ l -> get_student w' s = get_student w s) /\
    uni w' = uni w.
Proof.
  induction l as [|s0 rest IH]; intros w count Hall.
  - exists w, count. split; [done |]. split; [| done].
    intros s Hs. by apply elem_of_nil in Hs.
  - apply Forall_cons in Hall as [Hs0 Hrest].
    destruct (average_score (get_student w s0)) as [avg0|] eqn:Havg0; [| done].
    destruct (calculate_step d s0 rest count w avg0 Havg0) as [count1 Hstep].
    set (w1 := set_student s0 (with_scholarship (get_student w s0)
                                 (scholarship_formula d avg0)) w) in *.
    assert (Hrest1 : Forall (fun s => is_ok (average_score (get_student w1 s)) = true) rest).
    { eapply Forall_impl; [exact Hrest |]. intros s Hs. cbv beta in Hs.
      unfold w1. by rewrite average_score_after_assign. }
    destruct (IH w1 count1 Hrest1) as (w' & count' & Hrun & Hin & Hout & Huni).
    exists w', count'. split; [by rewrite Hstep |]. split; [| split; [| done]].
    + intros s Hs.
      destruct (decide (s ∈ rest)) as [Hsr | Hsr].
      * destruct (Hin s Hsr) as (avg & Havg & Hget).
        unfold w1 in Havg. rewrite average_score_after_assign in Havg.
        exists avg. split; [done |]. rewrite Hget. unfold w1.
        destruct (decide (s0 = s)) as [<-|Hne].
        -- by rewrite get_student_set_eq.
        -- by rewrite get_student_set_ne.
      * apply elem_of_cons in Hs as [-> | Hs]; [| done].
        exists avg0. split; [done |]. rewrite (Hout s0 Hsr).
        unfold w1. by rewrite get_student_set_eq.
    + intros s Hs. apply not_elem_of_cons in Hs as [Hne Hsr].
      rewrite (Hout s Hsr). unfold w1. by rewrite get_student_set_ne.
Qed.

(** C7: for students whose grades are in the data model's range,
    [calculate_and_assign] returns and every student of the list has been
    assigned an amount: [round(base_amount * (1 + (average_score -
    min_average_score) * 0.1), 2)] when the average is at least the
    minimum, exactly 0.0 otherwise; nothing else of a student changes and
    students outside the list are untouched. With minimum 6.0 and base
    100.0 an average of 8.0 gives exactly 120.0 and an average of 4.0
    gives exactly 0.0. *)
Theorem calculate_and_assign_spec (d : ScholarshipDepartment) (l : list loc) (w : World) :
  Forall (fun s => grades_in_range (get_student w s)) l ->
  exists w',
    calculate_and_assign d l w = (Ok tt, w') /\
    (forall s, s ∈ l ->
       exists avg,
         average_score (get_student w s) = Ok avg /\
         get_student w' s =
           with_scholarship (get_student w s) (scholarship_amount (get_student w' s)) /\
         scholarship_amount (get_student w' s) = scholarship_formula d avg /\
         (B64.geb avg (min_average_score d) = true ->
          scholarship_amount (get_student w' s) =
            B64.round2
              (B64.mul (base_amount d)
                 (B64.add (B64.of_Z 1)
                    (B64.mul (B64.sub avg (min_average_score d)) B64.lit_0_1)))) /\
         (B64.geb avg (min_average_score d) = false ->
          scholarship_amount (get_student w' s) = B64.zero) /\
         (min_average_score d = B64.lit_6_0 -> base_amount d = B64.lit_100_0 ->
          (avg = B64.of_Z 8 -> scholarship_amount (get_student w' s) = B64.of_Z 120) /\
          (avg = B64.of_Z 4 -> scholarship_amount (get_student w' s) = B64.zero))) /\
    (forall s, s ∉ l -> get_student w' s = get_student w s).
Proof.
  intros Hrange.
  assert (Hall : Forall (fun s => is_ok (average_score (get_student w s)) = true) l).
  { eapply Forall_impl; [exact Hrange |]. intros s Hs. cbv beta in Hs.
    destruct (average_score_ok _ Hs) as [avg ->]. done. }
  destruct (calculate_and_assign_loop_spec d l w 0%nat Hall)
    as (w' & count' & Hrun & Hin & Hout & _).
  exists w'. split; [| split; [| done]].
  - unfold calculate_and_assign. by rewrite (bind_ok _ _ _ _ _ Hrun).
  - intros s Hs. destruct (Hin s Hs) as (avg & Havg & Hget).
    exists avg. split; [done |]. rewrite Hget. simpl.
    split; [done |]. split; [done |]. unfold scholarship_formula.
    split; [by intros -> |]. split; [by intros -> |].
    intros -> ->. split; by intros ->.
Qed.

(** * Further properties of the code *)

(** ** Classroom: [occupy] and [vacate] together *)

Lemma classroom_eta (room : Classroom) :
  mkClassroom (number room) (capacity room) (is_occupied room) = room.
Proof. by destruct room. Qed.

Lemma set_classroom_twice c v1 v2 w :
  set_classroom c v2 (set_classroom c v1 w) = set_classroom c v2 w.
Proof. unfold set_classroom. simpl. by rewrite insert_insert_eq. Qed.

Lemma set_classroom_same c v w :
  classroom_heap w !! c = Some v -> set_classroom c v w = w.
Proof.
  intros H. unfold set_classroom. rewrite insert_id by done. by destruct w.
Qed.

Lemma get_classroom_Some w c room :
  classroom_heap w !! c = Some room -> get_classroom w c = room.
Proof. intros H. unfold get_classroom. by rewrite lookup_total_alt, H. Qed.

(** X1: a free classroom can be occupied once: [occupy] returns and
    marks it, and a second [occupy] raises [StateError] and leaves it
    as the first one did; no other classroom is touched. *)
Theorem occupy_twice (w : World) (c : loc) :
  is_occupied (get_classroom w c) = false ->
  exists w1,
    occupy c w = (Ok tt, w1) /\
    is_occupied (get_classroom w1 c) = true /\
    occupy c w1 = (Raise StateError, w1) /\
    (forall c', c' <> c -> get_classroom w1 c' = get_classroom w c').
Proof.
  intros Hfree. eexists. split; [by apply occupy_free |].
  assert (Hocc : is_occupied (get_classroom (set_classroom c
            (mkClassroom (number (get_classroom w c)) (capacity (get_classroom w c)) true) w) c) = true).
  { by rewrite get_classroom_set_eq. }
  split; [done |]. split; [by apply occupy_occupied |].
  intros c' Hne. unfold get_classroom, set_classroom. simpl.
  by apply lookup_total_insert_ne.
Qed.

(** X2: [occupy] followed by [vacate] on a free classroom, and [vacate]
    followed by [occupy] on an occupied one, return and leave the world
    exactly as it was. *)
Theorem occupy_vacate_round_trip (w : World) (c : loc) (room : Classroom) :
  classroom_heap w !! c = Some room ->
  (is_occupied room = false -> (occupy c ;;; vacate c) w = (Ok tt, w)) /\
  (is_occupied room = true -> (vacate c ;;; occupy c) w = (Ok tt, w)).
Proof.
  intros Hc. pose proof (get_classroom_Some w c room Hc) as Hget. split; intros Hst.
  - assert (Hfree : is_occupied (get_classroom w c) = false) by (by rewrite Hget).
    rewrite (bind_ok _ _ _ _ _ (occupy_free w c Hfree)).
    rewrite vacate_occupied by (by rewrite get_classroom_set_eq).
    rewrite get_classroom_set_eq. simpl. rewrite set_classroom_twice, Hget.
    rewrite <- Hst, classroom_eta. by rewrite set_classroom_same.
  - assert (Hocc : is_occupied (get_classroom w c) = true) by (by rewrite Hget).
    rewrite (bind_ok _ _ _ _ _ (vacate_occupied w c Hocc)).
    rewrite occupy_free by (by rewrite get_classroom_set_eq).
    rewrite get_classroom_set_eq. simpl. rewrite set_classroom_twice, Hget.
    rewrite <- Hst, classroom_eta. by rewrite set_classroom_same.
Qed.

(** ** Curriculum.add_subject *)

Lemma get_curriculum_obj_set_eq w c v :
  get_curriculum_obj (set_curriculum c v w) c = v.
Proof. unfold get_curriculum_obj, set_curriculum. simpl. apply lookup_total_insert_eq. Qed.

Lemma get_curriculum_obj_set_ne w c c' v :
  c <> c' -> get_curriculum_obj (set_curriculum c v w) c' = get_curriculum_obj w c'.
Proof.
  intros Hne. unfold get_curriculum_obj, set_curriculum. simpl.
  by apply lookup_total_insert_ne.
Qed.

(** X3: [add_subject] never puts a subject twice into a curriculum: the
    required subjects of every curriculum stay pairwise distinct, whether
    the call returns or raises, and calling it a second time with the same
    name changes nothing more. *)
Theorem add_subject_no_duplicates (w : World) (c : loc) (subject_name : string) :
  (forall c', NoDup (required_subjects (get_curriculum_obj w c')) ->
              NoDup (required_subjects
                       (get_curriculum_obj (add_subject c subject_name w).2 c'))) /\
  (add_subject c subject_name ;;; add_subject c subject_name) w
    = add_subject c subject_name w.
Proof.
  unfold bind, add_subject.
  case_bool_decide as Hblank; [done |].
  destruct (in_list subject_name (required_subjects (get_curriculum_obj w c))) eqn:Hin.
  - split; [done |]. simpl. by rewrite Hin.
  - split.
    + intros c' Hnd. simpl. destruct (decide (c = c')) as [<-|Hne].
      * rewrite get_curriculum_obj_set_eq. simpl.
        apply NoDup_app. split; [done |]. split; [| apply NoDup_singleton].
        intros x Hx Hx'. apply list_elem_of_singleton in Hx' as ->.
        by apply in_list_false in Hin.
      * by rewrite get_curriculum_obj_set_ne.
    + simpl. rewrite get_curriculum_obj_set_eq. simpl.
      assert (Hnow : in_list subject_name
                (required_subjects (get_curriculum_obj w c) ++ [subject_name]) = true).
      { apply in_list_true, elem_of_app. right. apply list_elem_of_here. }
      by rewrite Hnow.
Qed.

(** X4: once a subject with a non-blank name was added to a curriculum,
    a student of that curriculum can take the exam in it: [take_exam]
    with a grade in range returns and the grade is in the record book. *)
Theorem add_subject_then_take_exam (w : World) (c s : loc) (subject_name : string) (g : Z) :
  strip subject_name <> "" ->
  curriculum (get_student w s) = Some c ->
  0 <= g <= 10 ->
  exists w1 w2,
    add_subject c subject_name w = (Ok tt, w1) /\
    subject_name ∈ required_subjects (get_curriculum_obj w1 c) /\
    take_exam s subject_name g w1 = (Ok tt, w2) /\
    record_book (get_student w2 s) !! subject_name = Some g.
Proof.
  intros Hblank Hcur Hg.
  assert (Hadd : exists w1, add_subject c subject_name w = (Ok tt, w1) /\
            subject_name ∈ required_subjects (get_curriculum_obj w1 c) /\
            get_student w1 s = get_student w s).
  { unfold add_subject. rewrite bool_decide_eq_false_2 by done.
    destruct (in_list subject_name (required_subjects (get_curriculum_obj w c))) eqn:Hin.
    - exists w. split; [done |]. split; [by apply in_list_true | done].
    - eexists. split; [done |]. split; [| done].
      rewrite get_curriculum_obj_set_eq. simpl.
      apply elem_of_app. right. apply list_elem_of_here. }
  destruct Hadd as (w1 & Hrun & Hin & Hsame).
  exists w1. eexists. split; [done |]. split; [done |].
  split.
  - apply take_exam_ok; [done |]. apply outside_curriculum_false.
    intros c' Hc'. rewrite Hsame, Hcur in Hc'. by injection Hc' as <-.
  - rewrite get_student_set_eq. simpl. apply lookup_insert_eq.
Qed.

(** ** Student: [borrow_book] and [return_book] *)

Lemma remove_first_sublist b l : remove_first b l `sublist_of` l.
Proof.
  induction l as [|x l IH]; simpl; [done |].
  case_bool_decide; [by apply sublist_cons | by apply sublist_skip].
Qed.

Lemma remove_first_app_new b l : b ∉ l -> remove_first b (l ++ [b]) = l.
Proof.
  induction l as [|x l IH]; intros Hb; simpl.
  - by rewrite bool_decide_eq_true_2.
  - apply not_elem_of_cons in Hb as [Hne Hb].
    rewrite bool_decide_eq_false_2 by done. by rewrite IH.
Qed.

Lemma set_student_twice s v1 v2 w :
  set_student s v2 (set_student s v1 w) = set_student s v2 w.
Proof. unfold set_student. simpl. by rewrite insert_insert_eq. Qed.

Lemma set_student_same s v w :
  student_heap w !! s = Some v -> set_student s v w = w.
Proof.
  intros H. unfold set_student. rewrite insert_id by done. by destruct w.
Qed.

Lemma get_student_Some w s st :
  student_heap w !! s = Some st -> get_student w s = st.
Proof. intros H. unfold get_student. by rewrite lookup_total_alt, H. Qed.

Lemma with_borrowed_same st : with_borrowed st (borrowed_books st) = st.
Proof. by destruct st. Qed.

(** X5: no student ever holds the same book twice: if the borrowed
    lists are duplicate-free, they are so after [borrow_book] and after
    [return_book], whether these return or raise. *)
Theorem borrowed_books_no_duplicates (w : World) (s : loc) (b : Book) :
  (forall s', NoDup (borrowed_books (get_student w s'))) ->
  (forall s', NoDup (borrowed_books (get_student (borrow_book s b w).2 s'))) /\
  (forall s', NoDup (borrowed_books (get_student (return_book s b w).2 s'))).
Proof.
  intros Hnd. split; intros s'.
  - unfold borrow_book.
    destruct (holds_book (get_student w s) b) eqn:Hheld; [apply Hnd |].
    simpl. destruct (decide (s = s')) as [<-|Hne].
    + rewrite get_student_set_eq. simpl.
      apply NoDup_app. split; [apply Hnd |]. split; [| apply NoDup_singleton].
      intros x Hx Hx'. apply list_elem_of_singleton in Hx' as ->.
      by apply holds_book_false in Hheld.
    + rewrite get_student_set_ne by done. apply Hnd.
  - unfold return_book.
    destruct (holds_book (get_student w s) b) eqn:Hheld; [| apply Hnd].
    simpl. destruct (decide (s = s')) as [<-|Hne].
    + rewrite get_student_set_eq. simpl.
      apply (sublist_NoDup _ _ (Hnd s)), remove_first_sublist.
    + rewrite get_student_set_ne by done. apply Hnd.
Qed.

(** X6: borrowing a book the student does not hold and returning it
    leaves the world exactly as it was. *)
Theorem borrow_return_round_trip (w : World) (s : loc) (st : Student) (b : Book) :
  student_heap w !! s = Some st ->
  b ∉ borrowed_books st ->
  (borrow_book s b ;;; return_book s b) w = (Ok tt, w).
Proof.
  intros Hs Hb. pose proof (get_student_Some w s st Hs) as Hget.
  unfold bind, borrow_book. rewrite Hget.
  rewrite (proj2 (holds_book_false st b) Hb).
  unfold ret, return_book. rewrite get_student_set_eq.
  assert (Hheld : holds_book (with_borrowed st (borrowed_books st ++ [b])) b = true).
  { apply holds_book_true. simpl. apply elem_of_app. right. apply list_elem_of_here. }
  rewrite Hheld. simpl. rewrite remove_first_app_new by done.
  rewrite set_student_twice.
  change (with_borrowed (with_borrowed st (borrowed_books st ++ [b])) (borrowed_books st))
    with (with_borrowed st (borrowed_books st)).
  by rewrite with_borrowed_same, set_student_same.
Qed.

(** ** Library: [add_book], [lend_book] and [accept_return] together *)

Lemma lookup_count_set_count_eq b n inv :
  lookup_count b (set_count b n inv) = Some n.
Proof.
  induction inv as [|[b0 n0] inv IH]; simpl.
  - by rewrite bool_decide_eq_true_2.
  - case_bool_decide as Hb; simpl.
    + by rewrite bool_decide_eq_true_2.
    + by rewrite bool_decide_eq_false_2.
Qed.

Lemma lookup_count_set_count_ne b b' n inv :
  b <> b' -> lookup_count b' (set_count b n inv) = lookup_count b' inv.
Proof.
  intros Hne. induction inv as [|[b0 n0] inv IH]; simpl.
  - by rewrite bool_decide_eq_false_2.
  - case_bool_decide as Hb; simpl.
    + subst b0. by rewrite !bool_decide_eq_false_2.
    + case_bool_decide; [done | apply IH].
Qed.

Lemma set_count_keys b n inv :
  (set_count b n inv).*1 = if bool_decide (b ∈ inv.*1) then inv.*1 else inv.*1 ++ [b].
Proof.
  induction inv as [|[b0 n0] inv IH].
  - case_bool_decide as Hin; [by apply elem_of_nil in Hin | done].
  - change (((b0, n0) :: inv).*1) with (b0 :: inv.*1).
    change (set_count b n ((b0, n0) :: inv))
      with (if bool_decide (b0 = b) then (b0, n) :: inv else (b0, n0) :: set_count b n inv).
    destruct (bool_decide (b0 = b)) eqn:Hb.
    + apply bool_decide_eq_true in Hb as ->.
      rewrite bool_decide_eq_true_2; [done | apply list_elem_of_here].
    + apply bool_decide_eq_false in Hb.
      change (((b0, n0) :: set_count b n inv).*1) with (b0 :: (set_count b n inv).*1).
      rewrite IH. destruct (bool_decide (b ∈ inv.*1)) eqn:Hin.
      * apply bool_decide_eq_true in Hin.
        rewrite bool_decide_eq_true_2; [done | by apply list_elem_of_further].
      * apply bool_decide_eq_false in Hin.
        rewrite bool_decide_eq_false_2; [done |].
        intros Hc. apply elem_of_cons in Hc as [-> | Hc]; done.
Qed.

Lemma set_count_keys_NoDup b n inv :
  NoDup inv.*1 -> NoDup (set_count b n inv).*1.
Proof.
  intros Hnd. rewrite set_count_keys. case_bool_decide as Hin; [done |].
  apply NoDup_app. split; [done |]. split; [| apply NoDup_singleton].
  intros x Hx Hx'. by apply list_elem_of_singleton in Hx' as ->.
Qed.

Lemma find_title_in t inv b :
  find_title t inv = Some b -> b ∈ inv.*1 /\ title b = t.
Proof.
  induction inv as [|[b0 n0] inv IH]; simpl; [done |].
  case_bool_decide as Hb.
  - intros [= <-]. split; [apply list_elem_of_here | done].
  - intros H. destruct (IH H) as [Hin Ht]. split; [by apply list_elem_of_further | done].
Qed.

(** What a successful [lend_book] leaves. *)
Lemma lend_book_ok w s t b :
  find_title t (get_inventory w) = Some b ->
  0 < count_of b (get_inventory w) ->
  b ∉ borrowed_books (get_student w s) ->
  lend_book s t w =
    (Ok tt,
     set_inventory (set_count b (count_of b (get_inventory w) + -1) (get_inventory w))
       (set_student s (with_borrowed (get_student w s)
                         (borrowed_books (get_student w s) ++ [b])) w)).
Proof.
  intros Hfind Hn Hfree. unfold lend_book. rewrite Hfind.
  rewrite (proj2 (Z.leb_gt _ 0) Hn).
  unfold bind, borrow_book. by rewrite (proj2 (holds_book_false _ b) Hfree).
Qed.

(** What a successful [accept_return] leaves. *)
Lemma accept_return_ok w s t b :
  find_title t (get_inventory w) = Some b ->
  b ∈ borrowed_books (get_student w s) ->
  accept_return s t w =
    (Ok tt,
     set_inventory (set_count b (count_of b (get_inventory w) + 1) (get_inventory w))
       (set_student s (with_borrowed (get_student w s)
                         (remove_first b (borrowed_books (get_student w s)))) w)).
Proof.
  intros Hfind Hheld. unfold accept_return. rewrite Hfind.
  rewrite (proj2 (holds_book_true _ b) Hheld). simpl.
  unfold bind, return_book. by rewrite (proj2 (holds_book_true _ b) Hheld).
Qed.

(** [lend_book] and [accept_return] either leave the world as it was or
    do what [lend_book_ok] and [accept_return_ok] say. *)
Lemma lend_book_cases w s t :
  (lend_book s t w).2 = w \/
  exists b, find_title t (get_inventory w) = Some b /\
            0 < count_of b (get_inventory w) /\
            b ∉ borrowed_books (get_student w s).
Proof.
  unfold lend_book.
  destruct (find_title t (get_inventory w)) as [b|] eqn:Hfind; [| by left].
  destruct (Z.leb_spec (count_of b (get_inventory w)) 0) as [|Hn]; [by left |].
  destruct (holds_book (get_student w s) b) eqn:Hheld.
  - left. unfold bind, borrow_book. by rewrite Hheld.
  - right. exists b. split; [done |]. split; [done |]. by apply holds_book_false.
Qed.

Lemma accept_return_cases w s t :
  (accept_return s t w).2 = w \/
  exists b, find_title t (get_inventory w) = Some b /\
            b ∈ borrowed_books (get_student w s).
Proof.
  unfold accept_return.
  destruct (find_title t (get_inventory w)) as [b|] eqn:Hfind; [| by left].
  destruct (holds_book (get_student w s) b) eqn:Hheld; [| by left].
  right. exists b. split; [done |]. by apply holds_book_true.
Qed.

(** X7: [accept_return] fails with [ResourceError], leaving the world as
    it was, when no inventory book has the title and when the student does
    not hold the first book with that title; otherwise it returns, the
    first occurrence of the book leaves the student's borrowed list and
    that entry's count is one more, every other entry and student being as
    before. *)
Theorem accept_return_spec (w : World) (student : loc) (book_title : string) :
  (Forall (fun e : Book * Z => title e.1 <> book_title) (get_inventory w) ->
   accept_return student book_title w = (Raise ResourceError, w)) /\
  (forall pre b n post,
     get_inventory w = pre ++ (b, n) :: post ->
     Forall (fun e : Book * Z => title e.1 <> book_title) pre ->
     title b = book_title ->
     (b ∉ borrowed_books (get_student w student) ->
      accept_return student book_title w = (Raise ResourceError, w)) /\
     (b ∈ borrowed_books (get_student w student) ->
      exists w',
        accept_return student book_title w = (Ok tt, w') /\
        borrowed_books (get_student w' student) =
          remove_first b (borrowed_books (get_student w student)) /\
        get_inventory w' = pre ++ (b, n + 1) :: post /\
        (forall s', s' <> student -> get_student w' s' = get_student w s'))).
Proof.
  split.
  - intros Hnone. unfold accept_return. by rewrite find_title_none.
  - intros pre b n post Hinv Hpre Hb.
    destruct (first_title_entry book_title pre b n post Hpre Hb)
      as (Hfind & Hcount & Hset).
    rewrite <- Hinv in Hfind, Hcount.
    split.
    + intros Hfree. unfold accept_return. rewrite Hfind.
      by rewrite (proj2 (holds_book_false _ b) Hfree).
    + intros Hheld. eexists. split; [by apply accept_return_ok |].
      rewrite get_student_set_inventory, get_student_set_eq.
      rewrite get_inventory_set_inventory. unfold count_of. rewrite Hcount. simpl.
      split; [done |]. split; [by rewrite Hinv, Hset |].
      intros s' Hne. rewrite get_student_set_inventory.
      by apply get_student_set_ne.
Qed.

Lemma set_inventory_twice inv1 inv2 w :
  set_inventory inv2 (set_inventory inv1 w) = set_inventory inv2 w.
Proof. done. Qed.

Lemma set_inventory_same w : set_inventory (get_inventory w) w = w.
Proof. destruct w as [? ? ? [? [?] ? ? ? ? ? ?] ? ? ?]. done. Qed.

Lemma set_inventory_set_student inv s v w :
  set_inventory inv (set_student s v w) = set_student s v (set_inventory inv w).
Proof. done. Qed.

(** X8: lending a copy to a student who does not hold the book and
    taking it back leaves the world exactly as it was: the count, the
    place of the entry in the inventory and the student's borrowed list. *)
Theorem lend_return_round_trip (w : World) (s : loc) (st : Student)
    (book_title : string) (pre post : list (Book * Z)) (b : Book) (n : Z) :
  student_heap w !! s = Some st ->
  get_inventory w = pre ++ (b, n) :: post ->
  Forall (fun e : Book * Z => title e.1 <> book_title) pre ->
  title b = book_title ->
  0 < n ->
  b ∉ borrowed_books st ->
  (lend_book s book_title ;;; accept_return s book_title) w = (Ok tt, w).
Proof.
  intros Hs Hinv Hpre Hb Hn Hfree.
  pose proof (get_student_Some w s st Hs) as Hget.
  destruct (first_title_entry book_title pre b n post Hpre Hb)
    as (Hfind & Hcount & Hset).
  destruct (first_title_entry book_title pre b (n + -1) post Hpre Hb)
    as (Hfind1 & Hcount1 & Hset1).
  rewrite <- Hinv in Hfind, Hcount.
  assert (Hc : count_of b (get_inventory w) = n) by (unfold count_of; by rewrite Hcount).
  assert (Hlend := lend_book_ok w s book_title b Hfind).
  rewrite Hc, Hget in Hlend. specialize (Hlend Hn Hfree).
  rewrite (bind_ok _ _ _ _ _ Hlend).
  rewrite Hinv, Hset.
  rewrite accept_return_ok with (b := b).
  - rewrite get_inventory_set_inventory, get_student_set_inventory, get_student_set_eq.
    unfold count_of. rewrite Hcount1, Hset1. simpl.
    rewrite remove_first_app_new by done.
    rewrite <- (set_inventory_set_student (pre ++ (b, n + -1) :: post)).
    rewrite set_inventory_twice, set_student_twice.
    replace (n + -1 + 1) with n by lia.
    change (with_borrowed (with_borrowed st (borrowed_books st ++ [b])) (borrowed_books st))
      with (with_borrowed st (borrowed_books st)).
    rewrite with_borrowed_same.
    rewrite set_student_same by done. by rewrite <- Hinv, set_inventory_same.
  - by rewrite get_inventory_set_inventory.
  - rewrite get_student_set_inventory, get_student_set_eq. simpl.
    apply elem_of_app. right. apply list_elem_of_here.
Qed.

(** X25: when the last copy of a title is lent, the next [lend_book]
    for this title raises [ResourceError] for every student and changes
    nothing, although the book is still in the inventory. *)
Theorem lend_last_copy (w : World) (s : loc) (book_title : string)
    (pre post : list (Book * Z)) (b : Book) :
  get_inventory w = pre ++ (b, 1) :: post ->
  Forall (fun e : Book * Z => title e.1 <> book_title) pre ->
  title b = book_title ->
  b ∉ borrowed_books (get_student w s) ->
  exists w1,
    lend_book s book_title w = (Ok tt, w1) /\
    get_inventory w1 = pre ++ (b, 0) :: post /\
    forall s2, lend_book s2 book_title w1 = (Raise ResourceError, w1).
Proof.
  intros Hinv Hpre Hb Hfree.
  destruct (first_title_entry book_title pre b 1 post Hpre Hb) as (Hfind & Hcount & Hset).
  destruct (first_title_entry book_title pre b 0 post Hpre Hb) as (Hfind0 & Hcount0 & _).
  rewrite <- Hinv in Hfind, Hcount.
  assert (Hc : count_of b (get_inventory w) = 1) by (unfold count_of; by rewrite Hcount).
  assert (Hlend := lend_book_ok w s book_title b Hfind).
  rewrite Hc in Hlend. specialize (Hlend ltac:(lia) Hfree).
  eexists. split; [exact Hlend |].
  rewrite get_inventory_set_inventory, Hinv, Hset. change (1 + -1) with 0.
  split; [done |].
  intros s2. unfold lend_book.
  rewrite get_inventory_set_inventory, Hfind0. unfold count_of. by rewrite Hcount0.
Qed.

Lemma occurrences_app b l x :
  occurrences b (l ++ [x]) = occurrences b l + (if bool_decide (x = b) then 1 else 0).
Proof.
  unfold occurrences. rewrite filter_app, length_app, Nat2Z.inj_add. f_equal.
  rewrite filter_cons, filter_nil. case_decide.
  - by rewrite bool_decide_eq_true_2.
  - by rewrite bool_decide_eq_false_2.
Qed.

Lemma occurrences_remove_first b' b l :
  b ∈ l ->
  occurrences b' (remove_first b l)
  = occurrences b' l - (if bool_decide (b = b') then 1 else 0).
Proof.
  unfold occurrences. induction l as [|x l IH]; intros Hin.
  - by apply elem_of_nil in Hin.
  - simpl remove_first. rewrite (filter_cons _ x l).
    destruct (decide (x = b)) as [-> | Hx].
    + rewrite (bool_decide_eq_true_2 (b = b)) by done.
      destruct (decide (b = b')) as [Hb | Hb].
      * rewrite (bool_decide_eq_true_2 _ Hb). simpl length. lia.
      * rewrite (bool_decide_eq_false_2 _ Hb). lia.
    + rewrite (bool_decide_eq_false_2 (x = b)) by done.
      apply elem_of_cons in Hin as [-> | Hin]; [done |].
      rewrite filter_cons.
      destruct (decide (x = b')); simpl length; rewrite ?Nat2Z.inj_succ, IH by done; lia.
Qed.

Lemma count_of_set_count b b' k inv :
  count_of b' (set_count b k inv) = if bool_decide (b = b') then k else count_of b' inv.
Proof.
  unfold count_of. case_bool_decide as Hb.
  - subst b'. by rewrite lookup_count_set_count_eq.
  - by rewrite lookup_count_set_count_ne.
Qed.

Lemma held_copies_set_student b w s v :
  held_copies b (set_student s v w)
  = held_copies b w - occurrences b (borrowed_books (get_student w s))
    + occurrences b (borrowed_books v).
Proof.
  unfold held_copies, get_student, set_student. simpl.
  set (f := fun p : loc * Student => occurrences b (borrowed_books p.2)).
  rewrite lookup_total_alt.
  destruct (student_heap w !! s) as [st|] eqn:Hs; simpl.
  - rewrite <- insert_delete_eq.
    rewrite (sum_Permutation _ (f <$> (s, v) :: map_to_list (delete s (student_heap w)))).
    2:{ apply fmap_Permutation, map_to_list_insert, lookup_delete_eq. }
    rewrite (sum_Permutation (f <$> map_to_list (student_heap w))
               (f <$> (s, st) :: map_to_list (delete s (student_heap w)))).
    2:{ apply fmap_Permutation. symmetry. by apply map_to_list_delete. }
    rewrite !fmap_cons. unfold sum. simpl.
    change (f (s, v)) with (occurrences b (borrowed_books v)).
    change (f (s, st)) with (occurrences b (borrowed_books st)). lia.
  - rewrite (sum_Permutation _ (f <$> (s, v) :: map_to_list (student_heap w))).
    2:{ by apply fmap_Permutation, map_to_list_insert. }
    rewrite fmap_cons. unfold sum. simpl.
    change (f (s, v)) with (occurrences b (borrowed_books v)).
    change (occurrences b []) with 0. lia.
Qed.

(** X9: lending and returning neither lose nor create a copy: for every
    book, the count in the inventory plus the copies in the students'
    borrowed lists is the same after [lend_book] and after
    [accept_return] as before, whether they return or raise. *)
Theorem copies_conserved (w : World) (s : loc) (book_title : string) (b' : Book) :
  copies_total b' (lend_book s book_title w).2 = copies_total b' w /\
  copies_total b' (accept_return s book_title w).2 = copies_total b' w.
Proof.
  split.
  - destruct (lend_book_cases w s book_title) as [-> | (b & Hfind & Hn & Hfree)]; [done |].
    rewrite (lend_book_ok w s book_title b Hfind Hn Hfree). simpl.
    unfold copies_total. rewrite get_inventory_set_inventory, count_of_set_count.
    change (held_copies b' (set_inventory ?i ?x)) with (held_copies b' x).
    rewrite held_copies_set_student. simpl. rewrite occurrences_app.
    change (get_inventory (set_student ?a ?v w)) with (get_inventory w).
    case_bool_decide; [subst b' |]; lia.
  - destruct (accept_return_cases w s book_title) as [-> | (b & Hfind & Hheld)]; [done |].
    rewrite (accept_return_ok w s book_title b Hfind Hheld). simpl.
    unfold copies_total. rewrite get_inventory_set_inventory, count_of_set_count.
    change (held_copies b' (set_inventory ?i ?x)) with (held_copies b' x).
    rewrite held_copies_set_student. simpl. rewrite occurrences_remove_first by done.
    change (get_inventory (set_student ?a ?v w)) with (get_inventory w).
    case_bool_decide; [subst b' |]; lia.
Qed.

(** X10: [add_book] adds the quantity to the count of the book, counted
    from 0 when the book is new, and leaves every other count, every
    student and the copies students hold as they were. *)
Theorem add_book_count (w : World) (b : Book) (q : Z) :
  exists w',
    add_book b q w = (Ok tt, w') /\
    lookup_count b (get_inventory w') = Some (count_of b (get_inventory w) + q) /\
    (forall b', b' <> b ->
       lookup_count b' (get_inventory w') = lookup_count b' (get_inventory w)) /\
    (forall b', held_copies b' w' = held_copies b' w) /\
    student_heap w' = student_heap w.
Proof.
  unfold add_book, count_of.
  destruct (lookup_count b (get_inventory w)) as [n|] eqn:Hb; eexists; (split; [done |]);
    rewrite get_inventory_set_inventory, lookup_count_set_count_eq; simpl;
    (split; [done |]); (split; [| done]);
    intros b' Hne; by apply lookup_count_set_count_ne.
Qed.

(** X11: the inventory never holds two entries for one book: from an
    empty inventory, after any sequence of [add_book], [lend_book] and
    [accept_return] calls, the books of the inventory are pairwise
    distinct. *)
Theorem inventory_keys_distinct (calls : list library_call) (w : World) :
  get_inventory w = [] ->
  NoDup (get_inventory (after_calls calls w)).*1.
Proof.
  intros Hempty.
  assert (Hw : NoDup (get_inventory w).*1) by (rewrite Hempty; constructor).
  clear Hempty. revert w Hw.
  induction calls as [|c calls IH]; intros w Hw; [done |].
  simpl. apply IH. destruct c as [b q | s t | s t]; simpl.
  - unfold add_book. destruct (lookup_count b (get_inventory w)); simpl;
      rewrite get_inventory_set_inventory; by apply set_count_keys_NoDup.
  - destruct (lend_book_cases w s t) as [-> | (b & Hfind & Hn & Hfree)]; [done |].
    rewrite (lend_book_ok w s t b Hfind Hn Hfree). simpl.
    rewrite get_inventory_set_inventory. by apply set_count_keys_NoDup.
  - destruct (accept_return_cases w s t) as [-> | (b & Hfind & Hheld)]; [done |].
    rewrite (accept_return_ok w s t b Hfind Hheld). simpl.
    rewrite get_inventory_set_inventory. by apply set_count_keys_NoDup.
Qed.

(** ** University.add_classroom *)

Lemma existsb_number w num l :
  existsb (fun c => number (get_classroom w c) =? num) l = true <->
  num ∈ (fun c => number (get_classroom w c)) <$> l.
Proof.
  rewrite existsb_exists, list_elem_of_fmap. split.
  - intros (c & Hin & Heq). apply Z.eqb_eq in Heq. exists c.
    split; [done | by apply list_elem_of_In].
  - intros (c & Heq & Hin). exists c.
    split; [by apply list_elem_of_In | by apply Z.eqb_eq].
Qed.

Lemma fresh_classroom_other w c :
  is_Some (classroom_heap w !! c) -> c <> fresh (dom (classroom_heap w)).
Proof.
  intros Hc ->. apply elem_of_dom in Hc. by apply is_fresh in Hc.
Qed.

Lemma add_classroom_cases w num cap :
  ((num ∈ classroom_numbers w) /\ add_classroom num cap w = (Raise ResourceError, w)) \/
  ((num ∉ classroom_numbers w) /\
   add_classroom num cap w = (Ok (fresh (dom (classroom_heap w))), with_classroom num cap w)).
Proof.
  unfold add_classroom, classroom_numbers.
  destruct (existsb _ _) eqn:Hex.
  - left. split; [by apply existsb_number | done].
  - right. split; [| done]. intros Hin. apply existsb_number in Hin. congruence.
Qed.

Lemma classroom_numbers_with_classroom w num cap :
  classrooms_allocated w ->
  classroom_numbers (with_classroom num cap w) = classroom_numbers w ++ [num].
Proof.
  intros Hall. unfold classroom_numbers, with_classroom, get_classroom. simpl.
  rewrite fmap_app. simpl. rewrite lookup_total_insert_eq. simpl. f_equal.
  apply list_fmap_ext. intros i c Hc. f_equal.
  apply lookup_total_insert_ne. symmetry. apply fresh_classroom_other.
  apply (proj1 (Forall_forall _ _) Hall c). by eapply list_elem_of_lookup_2.
Qed.

(** X12: [add_classroom] raises [ResourceError], changing nothing, when
    a classroom of the university has the number; otherwise it returns a
    new classroom with this number and capacity, free, appended to the
    list, and every classroom object there was is as before. *)
Theorem add_classroom_spec (w : World) (num cap : Z) :
  (num ∈ classroom_numbers w ->
   add_classroom num cap w = (Raise ResourceError, w)) /\
  (num ∉ classroom_numbers w ->
   exists r w',
     add_classroom num cap w = (Ok r, w') /\
     classroom_heap w !! r = None /\
     get_classroom w' r = mkClassroom num cap false /\
     classrooms (uni w') = classrooms (uni w) ++ [r] /\
     (forall c, is_Some (classroom_heap w !! c) ->
                get_classroom w' c = get_classroom w c)).
Proof.
  destruct (add_classroom_cases w num cap) as [[Hin Hrun] | [Hout Hrun]].
  { split; [done | by intros Hout]. }
  split; [by intros Hin |].
  intros _. eexists _, _. split; [exact Hrun |].
  split; [apply not_elem_of_dom, is_fresh |].
  unfold get_classroom, with_classroom. simpl. rewrite lookup_total_insert_eq.
  split; [done |]. split; [done |].
  intros c Hc. apply lookup_total_insert_ne. symmetry. by apply fresh_classroom_other.
Qed.

(** X13: the classroom numbers of a university stay pairwise distinct
    under [add_classroom], whether it returns or raises (and its
    classrooms stay objects of the store). *)
Theorem classroom_numbers_distinct (w : World) (num cap : Z) :
  classrooms_allocated w ->
  NoDup (classroom_numbers w) ->
  classrooms_allocated (add_classroom num cap w).2 /\
  NoDup (classroom_numbers (add_classroom num cap w).2).
Proof.
  intros Hall Hnd.
  destruct (add_classroom_cases w num cap) as [[Hin ->] | [Hout ->]]; [done |].
  simpl. split.
  - unfold classrooms_allocated, with_classroom. simpl.
    apply Forall_app. split.
    + eapply Forall_impl; [exact Hall |]. intros c Hc. cbv beta in *.
      rewrite lookup_insert_ne; [done |]. symmetry. by apply fresh_classroom_other.
    + apply Forall_singleton. rewrite lookup_insert_eq. by eexists.
  - rewrite classroom_numbers_with_classroom by done.
    apply NoDup_app. split; [done |]. split; [| apply NoDup_singleton].
    intros x Hx Hx'. by apply list_elem_of_singleton in Hx' as ->.
Qed.

(** ** University.add_curriculum *)

Lemma get_curriculum_None_iff w n :
  get_curriculum w n = None <-> lower n ∉ curriculum_keys w.
Proof.
  unfold get_curriculum, curriculum_keys.
  induction (curriculums (uni w)) as [|c l IH]; simpl.
  - split; [intros _; apply not_elem_of_nil | done].
  - case_bool_decide as Hc.
    + split; [done |]. intros Hout. exfalso. apply Hout. rewrite Hc. apply list_elem_of_here.
    + rewrite IH. rewrite not_elem_of_cons. split; [by intros ? | by intros [_ ?]].
Qed.

Lemma fresh_curriculum_other w c :
  is_Some (curriculum_heap w !! c) -> c <> fresh (dom (curriculum_heap w)).
Proof.
  intros Hc ->. apply elem_of_dom in Hc. by apply is_fresh in Hc.
Qed.

Lemma add_curriculum_cases w n :
  (strip n = "" /\ add_curriculum n w = (Raise ValueError, w)) \/
  (strip n <> "" /\ (lower n ∈ curriculum_keys w) /\
   add_curriculum n w = (Raise ResourceError, w)) \/
  (strip n <> "" /\ (lower n ∉ curriculum_keys w) /\
   add_curriculum n w = (Ok (fresh (dom (curriculum_heap w))), with_curriculum n w)).
Proof.
  unfold add_curriculum. case_bool_decide as Hblank; [by left |]. right.
  destruct (get_curriculum w n) as [c|] eqn:Hget.
  - left. split; [done |]. split; [| done].
    destruct (decide (lower n ∈ curriculum_keys w)) as [|Hout]; [done |].
    apply get_curriculum_None_iff in Hout. congruence.
  - right. split; [done |]. split; [| done]. by apply get_curriculum_None_iff.
Qed.

Lemma curriculum_keys_with_curriculum w n :
  curricula_allocated w ->
  curriculum_keys (with_curriculum n w) = curriculum_keys w ++ [lower n].
Proof.
  intros Hall. unfold curriculum_keys, with_curriculum, get_curriculum_obj. simpl.
  rewrite fmap_app. simpl. rewrite lookup_total_insert_eq. simpl. f_equal.
  apply list_fmap_ext. intros i c Hc. do 2 f_equal.
  apply lookup_total_insert_ne. symmetry. apply fresh_curriculum_other.
  apply (proj1 (Forall_forall _ _) Hall c). by eapply list_elem_of_lookup_2.
Qed.

(** X14: [add_curriculum] raises [ValueError] for a name that is blank
    after stripping and [ResourceError] for a name that some curriculum
    already has up to letter case, changing nothing in both cases;
    otherwise it returns a new curriculum with this name and no subjects,
    appended to the list. *)
Theorem add_curriculum_spec (w : World) (n : string) :
  (strip n = "" -> add_curriculum n w = (Raise ValueError, w)) /\
  (strip n <> "" -> lower n ∈ curriculum_keys w ->
   add_curriculum n w = (Raise ResourceError, w)) /\
  (strip n <> "" -> lower n ∉ curriculum_keys w ->
   exists r w',
     add_curriculum n w = (Ok r, w') /\
     curriculum_heap w !! r = None /\
     get_curriculum_obj w' r = mkCurriculum n [] /\
     curriculums (uni w') = curriculums (uni w) ++ [r] /\
     students (uni w') = students (uni w) /\
     student_heap w' = student_heap w).
Proof.
  destruct (add_curriculum_cases w n)
    as [[Hb Hrun] | [(Hb & Hin & Hrun) | (Hb & Hout & Hrun)]].
  - split; [done |]. split; by intros ?.
  - split; [by intros ? |]. split; [done | by intros ? ?].
  - split; [by intros ? |]. split; [by intros ? ? |].
    intros _ _. eexists _, _. split; [exact Hrun |].
    split; [apply not_elem_of_dom, is_fresh |].
    unfold get_curriculum_obj, with_curriculum. simpl.
    by rewrite lookup_total_insert_eq.
Qed.

(** X15: the specialty names of a university stay pairwise distinct up
    to letter case under [add_curriculum], whether it returns or raises
    (and its curricula stay objects of the store). *)
Theorem curriculum_names_distinct (w : World) (n : string) :
  curricula_allocated w ->
  NoDup (curriculum_keys w) ->
  curricula_allocated (add_curriculum n w).2 /\
  NoDup (curriculum_keys (add_curriculum n w).2).
Proof.
  intros Hall Hnd.
  destruct (add_curriculum_cases w n)
    as [[Hb ->] | [(Hb & Hin & ->) | (Hb & Hout & ->)]]; [done | done |].
  simpl. split.
  - unfold curricula_allocated, with_curriculum. simpl.
    apply Forall_app. split.
    + eapply Forall_impl; [exact Hall |]. intros c Hc. cbv beta in *.
      rewrite lookup_insert_ne; [done |]. symmetry. by apply fresh_curriculum_other.
    + apply Forall_singleton. rewrite lookup_insert_eq. by eexists.
  - rewrite curriculum_keys_with_curriculum by done.
    apply NoDup_app. split; [done |]. split; [| apply NoDup_singleton].
    intros x Hx Hx'. by apply list_elem_of_singleton in Hx' as ->.
Qed.

Lemma find_app_last {A} (f : A -> bool) (l : list A) (y : A) :
  Forall (fun x => f x = false) l -> f y = true -> List.find f (l ++ [y]) = Some y.
Proof.
  intros Hl Hy. induction Hl as [|x l Hx _ IH]; simpl.
  - by rewrite Hy.
  - by rewrite Hx.
Qed.

(** X16: a curriculum that [add_curriculum] has just created is found by
    [get_curriculum] under every name equal to its own up to letter
    case, and [enroll_student] with such a name returns a student whose
    curriculum is the new one. *)
Theorem add_curriculum_then_enroll (w : World) (n n' full_name : string) (age : Z) :
  curricula_allocated w ->
  strip n <> "" ->
  lower n ∉ curriculum_keys w ->
  lower n' = lower n ->
  exists r w1 s w2,
    add_curriculum n w = (Ok r, w1) /\
    get_curriculum w1 n' = Some r /\
    enroll_student full_name age n' w1 = (Ok s, w2) /\
    curriculum (get_student w2 s) = Some r /\
    students (uni w2) = students (uni w) ++ [s].
Proof.
  intros Hall Hb Hout Hn'.
  destruct (add_curriculum_cases w n)
    as [[Hb' _] | [(_ & Hin & _) | (_ & _ & Hrun)]]; [done | done |].
  set (r := fresh (dom (curriculum_heap w))) in *.
  assert (Hget : get_curriculum (with_curriculum n w) n' = Some r).
  { unfold get_curriculum. simpl. apply find_app_last.
    - apply Forall_forall. intros c Hc. apply bool_decide_eq_false.
      assert (Hne : c <> r).
      { apply fresh_curriculum_other. by apply (proj1 (Forall_forall _ _) Hall c). }
      unfold get_curriculum_obj, with_curriculum. simpl. fold r.
      rewrite lookup_total_insert_ne by done. rewrite Hn'.
      intros Heq. apply Hout. unfold curriculum_keys. apply list_elem_of_fmap.
      exists c. split; [| done]. by rewrite <- Heq.
    - apply bool_decide_eq_true.
      unfold get_curriculum_obj, with_curriculum. simpl. fold r.
      by rewrite lookup_total_insert_eq. }
  exists r, (with_curriculum n w). eexists _, _.
  split; [exact Hrun |]. split; [exact Hget |].
  split; [unfold enroll_student; rewrite Hget; reflexivity |].
  unfold get_student. simpl. by rewrite lookup_total_insert_eq.
Qed.

(** ** University: teachers *)

(** X17: [enroll_teacher] raises [EnrollmentError] for an empty list of
    subjects; otherwise the teacher it returns is appended to the teachers
    and can be given an exam in exactly the listed subjects: [create_exam]
    returns for each of them, in any classroom and for any students, and
    raises [EnrollmentError] for every other subject. *)
Theorem enroll_teacher_then_create_exam (w : World) (full_name : string) (age : Z)
    (deg : TeacherDegree) (subjs : list string) :
  (subjs = [] ->
   enroll_teacher full_name age deg subjs w = (Raise EnrollmentError, w)) /\
  (subjs <> [] ->
   exists t w1,
     enroll_teacher full_name age deg subjs w = (Ok t, w1) /\
     teachers (uni w1) = teachers (uni w) ++ [t] /\
     subjects t = subjs /\
     forall subj room roster,
       (subj ∈ subjs ->
        exists ex w2, create_exam subj t room roster w1 = (Ok ex, w2) /\
                      exams (uni w2) = exams (uni w) ++ [ex]) /\
       (subj ∉ subjs ->
        create_exam subj t room roster w1 = (Raise EnrollmentError, w1))).
Proof.
  split; [by intros -> |].
  intros Hne. destruct subjs as [|x subjs]; [done |].
  eexists _, _. split; [reflexivity |]. split; [done |]. split; [done |].
  intros subj room roster. split.
  - intros Hin. unfold create_exam. cbn [subjects].
    rewrite (proj2 (in_list_true _ _) Hin). by eexists _, _.
  - intros Hout. unfold create_exam. cbn [subjects].
    by rewrite (proj2 (in_list_false _ _) Hout).
Qed.

Lemma remove_teacher_Permutation t l :
  t ∈ l -> t :: remove_teacher t l ≡ₚ l.
Proof.
  induction l as [|x l IH]; intros Hin; [by apply elem_of_nil in Hin |].
  simpl. case_bool_decide as Hx; [by subst x |].
  apply elem_of_cons in Hin as [-> | Hin]; [done |].
  rewrite Permutation_swap. by rewrite IH.
Qed.

Lemma remove_teacher_sublist t l : remove_teacher t l `sublist_of` l.
Proof.
  induction l as [|x l IH]; simpl; [done |].
  case_bool_decide; [by apply sublist_cons | by apply sublist_skip].
Qed.

(** X18: [fire_teacher] never raises. For a teacher who is not in the
    list it changes nothing; otherwise exactly one entry equal to the
    teacher leaves the list, the others keeping their order, and nothing
    else changes: exams that name the teacher stay registered. *)
Theorem fire_teacher_spec (w : World) (t : Teacher) :
  (t ∉ teachers (uni w) -> fire_teacher t w = (Ok tt, w)) /\
  (t ∈ teachers (uni w) ->
   exists w',
     fire_teacher t w = (Ok tt, w') /\
     t :: teachers (uni w') ≡ₚ teachers (uni w) /\
     teachers (uni w') `sublist_of` teachers (uni w) /\
     exams (uni w') = exams (uni w) /\
     students (uni w') = students (uni w)).
Proof.
  unfold fire_teacher. split; intros Hin.
  - by rewrite bool_decide_eq_false_2.
  - rewrite bool_decide_eq_true_2 by done. eexists. split; [done |]. simpl.
    split; [by apply remove_teacher_Permutation |].
    split; [apply remove_teacher_sublist | done].
Qed.

(** ** University.expel_student *)

Lemma student_eqb_refl w s : student_eqb w s s = true.
Proof. unfold student_eqb. by rewrite bool_decide_eq_true_2. Qed.

(** Two students that [==] finds equal are the same object or have the
    same id. *)
Lemma student_eqb_id w x s :
  student_eqb w x s = true ->
  x = s \/ person_id (get_student w x) = person_id (get_student w s).
Proof.
  unfold student_eqb. intros H. apply orb_true_iff in H as [H | H].
  - left. by apply bool_decide_eq_true in H.
  - right. repeat (apply andb_true_iff in H as [H ?]).
    by match goal with
       | Hid : bool_decide (person_id _ = person_id _) = true |- _ =>
           apply bool_decide_eq_true in Hid
       end.
Qed.

Lemma NoDup_fmap_inj_on {A B} (f : A -> B) (l : list A) x y :
  NoDup (f <$> l) -> x ∈ l -> y ∈ l -> f x = f y -> x = y.
Proof.
  induction l as [|a l IH]; intros Hnd Hx Hy Hf; [by apply elem_of_nil in Hx |].
  rewrite fmap_cons in Hnd. apply NoDup_cons in Hnd as [Ha Hnd].
  apply elem_of_cons in Hx as [-> | Hx]; apply elem_of_cons in Hy as [-> | Hy].
  - done.
  - exfalso. apply Ha. rewrite Hf. by apply list_elem_of_fmap_2.
  - exfalso. apply Ha. rewrite <- Hf. by apply list_elem_of_fmap_2.
  - by apply IH.
Qed.

Lemma remove_student_sublist w s l : remove_student w s l `sublist_of` l.
Proof.
  induction l as [|x l IH]; simpl; [done |].
  destruct (student_eqb w x s); [by apply sublist_cons | by apply sublist_skip].
Qed.

(** With distinct ids, [remove] takes out the student itself. *)
Lemma remove_student_self w s l :
  (forall x, x ∈ l -> student_eqb w x s = true -> x = s) ->
  NoDup l -> s ∈ l ->
  (s ∉ remove_student w s l) /\
  (forall x, x <> s -> x ∈ remove_student w s l <-> x ∈ l) /\
  s :: remove_student w s l ≡ₚ l.
Proof.
  induction l as [|a l IH]; intros Heq Hnd Hin; [by apply elem_of_nil in Hin |].
  apply NoDup_cons in Hnd as [Ha Hnd]. simpl.
  destruct (student_eqb w a s) eqn:Has.
  - assert (a = s) as -> by (apply Heq; [apply list_elem_of_here | done]).
    split; [done |]. split; [| done].
    intros x Hx. rewrite elem_of_cons. split; [by right | by intros [? | ?]].
  - apply elem_of_cons in Hin as [-> | Hin]; [by rewrite student_eqb_refl in Has |].
    destruct IH as (Hout & Hothers & Hperm); [| done | done |].
    { intros x Hx. apply Heq. by apply list_elem_of_further. }
    assert (a <> s) by (intros ->; done).
    split; [by apply not_elem_of_cons |]. split.
    + intros x Hx. rewrite !elem_of_cons, Hothers by done. done.
    + by rewrite Permutation_swap, Hperm.
Qed.

(** X19: [expel_student] never raises. When no enrolled student has the
    student's id (and the student is not in the list) it changes nothing.
    When the ids of the enrolled students are pairwise distinct and the
    student is enrolled, it takes exactly this student out of the list,
    the others keeping their order; the student object, its record book
    and its borrowed books stay as they are. *)
Theorem expel_student_spec (w : World) (s : loc) :
  (s ∉ students (uni w) ->
   person_id (get_student w s) ∉ student_ids w ->
   expel_student s w = (Ok tt, w)) /\
  (NoDup (student_ids w) -> s ∈ students (uni w) ->
   exists w',
     expel_student s w = (Ok tt, w') /\
     (s ∉ students (uni w')) /\
     (forall x, x <> s -> x ∈ students (uni w') <-> x ∈ students (uni w)) /\
     s :: students (uni w') ≡ₚ students (uni w) /\
     students (uni w') `sublist_of` students (uni w) /\
     student_heap w' = student_heap w /\
     exams (uni w') = exams (uni w)).
Proof.
  unfold expel_student, student_ids. split.
  - intros Hout Hid.
    destruct (existsb _ _) eqn:Hex; [| done].
    apply existsb_exists in Hex as (x & Hx & Heq). apply list_elem_of_In in Hx.
    destruct (student_eqb_id w x s Heq) as [-> | Hsame]; [done |].
    exfalso. apply Hid. apply list_elem_of_fmap. by exists x.
  - intros Hnd Hin.
    assert (Hex : existsb (fun x => student_eqb w x s) (students (uni w)) = true).
    { apply existsb_exists. exists s.
      split; [by apply list_elem_of_In | apply student_eqb_refl]. }
    rewrite Hex. eexists. split; [done |]. simpl.
    destruct (remove_student_self w s (students (uni w))) as (Hout & Hothers & Hperm).
    + intros x Hx Heq. destruct (student_eqb_id w x s Heq) as [-> | Hsame]; [done |].
      by apply (NoDup_fmap_inj_on _ _ _ _ Hnd Hx Hin).
    + by apply NoDup_fmap_1 in Hnd.
    + done.
    + split; [done |]. split; [done |]. split; [done |].
      split; [apply remove_student_sublist | done].
Qed.

Lemma remove_student_app_last w s l :
  Forall (fun x => student_eqb w x s = false) l ->
  remove_student w s (l ++ [s]) = l.
Proof.
  induction 1 as [|x l Hx _ IH]; simpl.
  - by rewrite student_eqb_refl.
  - by rewrite Hx, IH.
Qed.

Lemma fresh_student_other w s :
  is_Some (student_heap w !! s) -> s <> fresh (dom (student_heap w)).
Proof.
  intros Hs ->. apply elem_of_dom in Hs. by apply is_fresh in Hs.
Qed.

(** X20: enrolling a student and expelling the student again gives the
    student list back as it was, when the new id is not the id of an
    enrolled student. *)
Theorem enroll_then_expel (w : World) (full_name : string) (age : Z)
    (curriculum_name : string) (c : loc) :
  students_allocated w ->
  get_curriculum w curriculum_name = Some c ->
  uuid4 (uuids w) ∉ student_ids w ->
  exists r w1 w2,
    enroll_student full_name age curriculum_name w = (Ok r, w1) /\
    r ∈ students (uni w1) /\
    expel_student r w1 = (Ok tt, w2) /\
    students (uni w2) = students (uni w) /\
    get_student w2 r = mkStudent full_name age (uuid4 (uuids w)) (Some c) B64.zero ∅ [].
Proof.
  intros Hall Hget Hid.
  set (r := fresh (dom (student_heap w))).
  eexists r, _, _. split; [unfold enroll_student; rewrite Hget; reflexivity |].
  split; [simpl; apply elem_of_app; right; apply list_elem_of_here |].
  set (w1 := mkWorld _ _ _ _ _ _ _).
  assert (Hold : Forall (fun x => student_eqb w1 x r = false) (students (uni w))).
  { apply Forall_forall. intros x Hx.
    assert (Hne : x <> r).
    { apply fresh_student_other. by apply (proj1 (Forall_forall _ _) Hall x). }
    destruct (student_eqb w1 x r) eqn:Heq; [| done].
    destruct (student_eqb_id w1 x r Heq) as [? | Hsame]; [done |].
    exfalso. apply Hid. unfold student_ids. apply list_elem_of_fmap. exists x.
    split; [| done]. revert Hsame. unfold get_student, w1. simpl. fold r.
    rewrite lookup_total_insert_eq, lookup_total_insert_ne by done. simpl.
    by intros ->. }
  assert (Hex : existsb (fun x => student_eqb w1 x r) (students (uni w1)) = true).
  { apply existsb_exists. exists r. split; [| apply student_eqb_refl].
    apply list_elem_of_In. simpl. apply elem_of_app. right. apply list_elem_of_here. }
  split.
  - unfold expel_student. rewrite Hex. reflexivity.
  - simpl. rewrite remove_student_app_last by done. split; [done |].
    unfold get_student. simpl. fold r. by rewrite lookup_total_insert_eq.
Qed.

(** ** University.process_semester_end *)

(** X21: [process_semester_end] does nothing when no student is
    enrolled; when the enrolled students' grades are in range it returns
    and every enrolled student has the amount of the scholarship formula
    for the student's own average under the university's policy, the
    list of students being as before. *)
Theorem process_semester_end_spec (w : World) :
  (students (uni w) = [] -> process_semester_end w = (Ok tt, w)) /\
  (Forall (fun s => grades_in_range (get_student w s)) (students (uni w)) ->
   exists w',
     process_semester_end w = (Ok tt, w') /\
     students (uni w') = students (uni w) /\
     forall s, s ∈ students (uni w) ->
       exists avg,
         average_score (get_student w s) = Ok avg /\
         scholarship_amount (get_student w' s)
           = scholarship_formula (accounting (uni w)) avg /\
         record_book (get_student w' s) = record_book (get_student w s)).
Proof.
  unfold process_semester_end. split; [by intros -> |].
  intros Hrange.
  assert (Hall : Forall (fun s => is_ok (average_score (get_student w s)) = true)
                        (students (uni w))).
  { eapply Forall_impl; [exact Hrange |]. intros s Hs. cbv beta in Hs.
    by destruct (average_score_ok _ Hs) as [avg ->]. }
  destruct (calculate_and_assign_loop_spec (accounting (uni w)) (students (uni w)) w 0%nat Hall)
    as (w' & count' & Hrun & Hin & _ & Huni).
  assert (Hcalc : calculate_and_assign (accounting (uni w)) (students (uni w)) w = (Ok tt, w')).
  { unfold calculate_and_assign. by rewrite (bind_ok _ _ _ _ _ Hrun). }
  destruct (students (uni w)) as [|s0 l] eqn:Hl.
  - exists w. split; [done |]. split; [done |]. intros s Hs. by apply elem_of_nil in Hs.
  - exists w'. split; [done |]. split; [by rewrite Huni |].
    intros s Hs. destruct (Hin s Hs) as (avg & Havg & Hget).
    exists avg. split; [done |]. by rewrite Hget.
Qed.

(** ** [handle_functions.conduct_exam] *)

Lemma expel_student_returns w s :
  exists w', expel_student s w = (Ok tt, w') /\
             classroom_heap w' = classroom_heap w /\
             student_heap w' = student_heap w /\
             curriculum_heap w' = curriculum_heap w /\
             exams (uni w') = exams (uni w) /\
             students (uni w') `sublist_of` students (uni w).
Proof.
  unfold expel_student. destruct (existsb _ _); eexists; (split; [done |]); simpl.
  - repeat (split; [done |]). apply remove_student_sublist.
  - done.
Qed.

Lemma expel_all_returns l : forall w,
  exists w', expel_all l w = (Ok tt, w') /\
             classroom_heap w' = classroom_heap w /\
             student_heap w' = student_heap w /\
             curriculum_heap w' = curriculum_heap w /\
             exams (uni w') = exams (uni w) /\
             students (uni w') `sublist_of` students (uni w).
Proof.
  induction l as [|s l IH]; intros w; [by exists w |].
  destruct (expel_student_returns w s) as (w1 & Hrun & Hc & Hs & Hcu & He & Hsub).
  destruct (IH w1) as (w' & Hrun' & Hc' & Hs' & Hcu' & He' & Hsub').
  exists w'. split; [simpl; by rewrite (bind_ok _ _ _ _ _ Hrun) |].
  split; [congruence |]. split; [congruence |]. split; [congruence |].
  split; [congruence |]. by etrans.
Qed.

Lemma has_subject_inside w st subj :
  has_subject w st subj = true -> outside_curriculum w st subj = false.
Proof.
  unfold has_subject, outside_curriculum.
  destruct (curriculum st); [by intros -> | done].
Qed.

Lemma eligible_students_may_sit w subj :
  Forall (fun s => outside_curriculum w (get_student w s) subj = false)
         (eligible_students w subj).
Proof.
  apply Forall_forall. intros s Hs. apply has_subject_inside.
  apply list_elem_of_In, filter_In in Hs. by destruct Hs.
Qed.

(** [conduct_exam] with its calls replaced by what they do. *)
Lemma conduct_exam_unfold w subj :
  conduct_exam subj w =
    match List.find (fun t => in_list subj (subjects t)) (teachers (uni w)) with
    | None => (Raise EnrollmentError, w)
    | Some tchr =>
        match List.find (fun c => negb (is_occupied (get_classroom w c)))
                        (classrooms (uni w)) with
        | None => (Raise StateError, w)
        | Some room =>
            match eligible_students w subj with
            | [] => (Raise EnrollmentError, w)
            | _ =>
                let ex := mkExam subj (now (ticks w)) tchr room (eligible_students w subj) in
                expel_all
                  (failed_students (eligible_students w subj)
                     (generated_grades w (length (eligible_students w subj))))
                  (conducted_world (with_exam ex w) ex)
            end
        end
    end.
Proof.
  unfold conduct_exam.
  destruct (List.find _ (teachers (uni w))) as [tchr|] eqn:Ht; [| done].
  destruct (List.find _ (classrooms (uni w))) as [room|] eqn:Hr; [| done].
  fold (eligible_students w subj).
  destruct (eligible_students w subj) as [|s0 l] eqn:Hel; [done |].
  rewrite <- Hel. cbv zeta.
  apply find_some in Ht as [_ Ht]. apply find_some in Hr as [_ Hr].
  apply negb_true_iff in Hr.
  set (ex := mkExam subj (now (ticks w)) tchr room (eligible_students w subj)).
  assert (Hcreate : create_exam subj tchr room (eligible_students w subj) w
                    = (Ok ex, with_exam ex w)).
  { unfold create_exam. by rewrite Ht. }
  rewrite (bind_ok _ _ _ _ _ Hcreate).
  rewrite (bind_ok _ _ _ _ _
             (conduct_ok (with_exam ex w) ex Hr (eligible_students_may_sit w subj))).
  change (registered_students ex) with (eligible_students w subj).
  change (generated_grades (with_exam ex w)) with (generated_grades w).
  by destruct (failed_students _ _).
Qed.





(** X23: [conduct_exam] never leaves a classroom taken: whether it
    returns or raises, every classroom object is afterwards as it was
    before, so the exception path of [conduct] that keeps the classroom
    occupied is not reached from this caller. *)
Theorem conduct_exam_keeps_classrooms (w : World) (subj : string) (c : loc) :
  get_classroom (conduct_exam subj w).2 c = get_classroom w c.
Proof.
  rewrite conduct_exam_unfold.
  destruct (List.find _ (teachers (uni w))) as [tchr|] eqn:Ht; [| done].
  destruct (List.find _ (classrooms (uni w))) as [room|] eqn:Hr; [| done].
  destruct (eligible_students w subj) as [|s0 l] eqn:E; [done |]. rewrite <- E.
  cbv zeta.
  set (ex := mkExam subj (now (ticks w)) tchr room (eligible_students w subj)).
  destruct (expel_all_returns
              (failed_students (eligible_students w subj)
                 (generated_grades w (length (eligible_students w subj))))
              (conducted_world (with_exam ex w) ex))
    as (w' & Hrun & Hrooms & _).
  rewrite Hrun. simpl. unfold get_classroom. rewrite Hrooms.
  unfold conducted_world. simpl.
  apply find_some in Hr as [_ Hr]. apply negb_true_iff in Hr.
  destruct (decide (room = c)) as [<- | Hne].
  - rewrite lookup_total_insert_eq.
    unfold get_classroom, graded_world. simpl. rewrite lookup_total_insert_eq. simpl.
    unfold get_classroom in Hr. rewrite <- Hr. apply classroom_eta.
  - rewrite !lookup_total_insert_ne by done. done.
Qed.











End Environment.

(** * The theorems on the scenarios *)

(** C6 as written fails: nothing in [add_book] looks at the sign of the
    quantity, so one call with quantity -1 on an empty inventory leaves a
    count below 0. *)
Lemma add_book_negative_quantity :
  get_inventory library_world = [] /\
  get_inventory (after_calls [CallAddBook book_1984 (-1)] library_world)
    = [(book_1984, -1)] /\
  ~ counts_nonnegative (after_calls [CallAddBook book_1984 (-1)] library_world).
Proof.
  split; [done |]. split; [done |].
  intros H. apply Forall_cons in H as [H _]. simpl in H. lia.
Qed.

(** [tests.py], [TestLibrary]: two copies are added, lent and returned. *)
Lemma library_counts_nonnegative_witness :
  counts_nonnegative
    (after_calls [CallAddBook book_1984 2; CallLendBook 0%nat "1984";
                  CallLendBook 0%nat "1984"; CallAcceptReturn 0%nat "1984"]
                 library_world).
Proof.
  apply library_counts_nonnegative; [reflexivity |].
  repeat constructor; simpl; lia.
Defined.

(** [test_take_exam_success]: grade 9 in a subject of the curriculum. *)
Lemma take_exam_spec_witness :
  exists w',
    take_exam 0%nat "OOP" 9 exam_world = (Ok tt, w') /\
    record_book (get_student w' 0%nat) !! "OOP" = Some 9.
Proof.
  destruct (take_exam_spec exam_world 0%nat "OOP" 9) as (_ & _ & H).
  destruct H as (w' & Hrun & Hrec & _).
  - lia.
  - intros c Hc. injection Hc as <-. vm_compute. apply list_elem_of_here.
  - exists w'. split; [exact Hrun | exact Hrec].
Defined.

(** [test_lend_book]: the reader takes one of the two copies. *)
Lemma lend_book_spec_witness :
  exists w',
    lend_book 0%nat "1984" stocked_world = (Ok tt, w') /\
    borrowed_books (get_student w' 0%nat) = [book_1984] /\
    get_inventory w' = [(book_1984, 1)].
Proof.
  destruct (lend_book_spec stocked_world 0%nat "1984") as [_ H].
  destruct (H [] book_1984 2 []) as (_ & _ & Hok).
  - reflexivity.
  - constructor.
  - reflexivity.
  - destruct Hok as (w' & Hrun & Hb & Hinv & _).
    + lia.
    + vm_compute. apply not_elem_of_nil.
    + exists w'. split; [exact Hrun |]. split; [exact Hb | exact Hinv].
Defined.

(** [test_conduct_exam_expulsion]: every generated grade is 2. *)
Lemma conduct_returns_failed_students_witness :
  exists w',
    conduct (fun _ => 1) oop_exam exam_world = (Ok [0%nat; 1%nat], w') /\
    uni w' = uni exam_world.
Proof.
  destruct (conduct_returns_failed_students (fun _ => 1) exam_world oop_exam)
    as [Hreturns Hresult].
  destruct Hreturns as [w' Hrun].
  - reflexivity.
  - repeat constructor.
  - destruct (Hresult _ w' Hrun) as (_ & _ & _ & _ & _ & _ & Huni & _).
    exists w'. split; [exact Hrun | exact Huni].
Defined.

(** The classroom of the exam is taken before [conduct] starts. *)
Lemma conduct_occupied_classroom_witness :
  exists w',
    conduct (fun _ => 1) oop_exam busy_world = (Raise StateError, w') /\
    w' = busy_world.
Proof.
  destruct (conduct_occupied_classroom (fun _ => 1) busy_world oop_exam)
    as (w' & Hrun & Hw & _).
  - reflexivity.
  - exists w'. split; [exact Hrun | exact Hw].
Defined.

(** The failing input of C1: the history exam over students of the IT
    curriculum. *)
Lemma conduct_raise_leaves_classroom_occupied_witness :
  is_occupied (get_classroom exam_world 0%nat) = false /\
  exists w',
    conduct (fun _ => 1) history_exam exam_world = (Raise EnrollmentError, w') /\
    is_occupied (get_classroom w' 0%nat) = true.
Proof.
  split; [reflexivity |].
  apply (conduct_raise_leaves_classroom_occupied (fun _ => 1) exam_world history_exam).
  - reflexivity.
  - apply Exists_cons_hd. reflexivity.
Defined.

(** [test_enroll_student_case_insensitive]: "it" finds the curriculum IT. *)
Lemma enroll_student_spec_witness :
  exists r w',
    enroll_student lower_ascii (fun _ => "uuid") "Bob" 19 "it" exam_world = (Ok r, w') /\
    students (uni w') = [0%nat; 1%nat; r] /\
    curriculum (get_student w' r) = Some 0%nat.
Proof.
  destruct (enroll_student_spec lower_ascii (fun _ => "uuid") exam_world "Bob" 19 "it")
    as [_ H].
  destruct (H [] 0%nat []) as (r & w' & Hrun & Hst & _ & _ & Hcur & _).
  - reflexivity.
  - constructor.
  - reflexivity.
  - exists r, w'. split; [exact Hrun |]. split; [exact Hst | exact Hcur].
Defined.

(** An exam is created in a classroom that is taken, for two students
    where the room and the university have none of them. *)
Lemma create_exam_spec_witness :
  exists ex w',
    create_exam (fun _ => 0) "OOP" oop_teacher 0%nat [7%nat; 8%nat] busy_world
      = (Ok ex, w') /\
    exams (uni w') = [ex].
Proof.
  destruct (create_exam_spec (fun _ => 0) busy_world "OOP" oop_teacher 0%nat [7%nat; 8%nat])
    as [_ H].
  destruct H as (ex & w' & Hrun & _ & Hex & _).
  - apply list_elem_of_here.
  - exists ex, w'. split; [exact Hrun | exact Hex].
Defined.

(** [test_average_score]: the grades 8 and 10. *)
Lemma average_score_spec_witness :
  average_score ivan = Ok (B64.of_Z 9).
Proof.
  destruct (average_score_spec ivan) as (_ & _ & _ & H).
  destruct (H "Math" "Code") as [Havg _].
  - discriminate.
  - reflexivity.
  - exact Havg.
Defined.

(** [TestScholarship.test_calculation]: 120.0 for the average 8.0 and 0.0
    for the average 4.0. *)
Lemma calculate_and_assign_spec_witness :
  exists w',
    calculate_and_assign default_accounting [0%nat; 1%nat] scholarship_world = (Ok tt, w') /\
    scholarship_amount (get_student w' 0%nat) = B64.of_Z 120 /\
    scholarship_amount (get_student w' 1%nat) = B64.zero.
Proof.
  destruct (calculate_and_assign_spec default_accounting [0%nat; 1%nat] scholarship_world)
    as (w' & Hrun & Hin & _).
  - repeat (apply Forall_cons; split); [| | apply Forall_nil];
      apply (bool_decide_unpack _); vm_compute; exact I.
  - exists w'. split; [exact Hrun |]. split.
    + destruct (Hin 0%nat) as (avg & Havg & _ & _ & _ & _ & H).
      * apply list_elem_of_here.
      * destruct H as [H _]; [reflexivity | reflexivity |].
        apply H. vm_compute in Havg. by injection Havg as <-.
    + destruct (Hin 1%nat) as (avg & Havg & _ & _ & _ & _ & H).
      * apply list_elem_of_further, list_elem_of_here.
      * destruct H as [_ H]; [reflexivity | reflexivity |].
        apply H. vm_compute in Havg. by injection Havg as <-.
Defined.

(** * The further properties on the scenarios *)

Lemma occupy_twice_witness :
  exists w1,
    occupy 0%nat exam_world = (Ok tt, w1) /\
    occupy 0%nat w1 = (Raise StateError, w1).
Proof.
  destruct (occupy_twice exam_world 0%nat) as (w1 & Hrun & _ & Hagain & _).
  - reflexivity.
  - exists w1. split; [exact Hrun | exact Hagain].
Defined.

Lemma occupy_vacate_round_trip_witness :
  (occupy 0%nat ;;; vacate 0%nat) exam_world = (Ok tt, exam_world).
Proof.
  destruct (occupy_vacate_round_trip exam_world 0%nat (mkClassroom 101 10 false))
    as [H _].
  - reflexivity.
  - apply H. reflexivity.
Defined.

Lemma add_subject_no_duplicates_witness :
  NoDup (required_subjects
           (get_curriculum_obj (add_subject strip_ascii 0%nat "Math" exam_world).2 0%nat)).
Proof.
  destruct (add_subject_no_duplicates strip_ascii exam_world 0%nat "Math") as [H _].
  apply H. vm_compute. apply NoDup_singleton.
Defined.

Lemma add_subject_then_take_exam_witness :
  exists w1 w2,
    add_subject strip_ascii 0%nat "Math" exam_world = (Ok tt, w1) /\
    take_exam 1%nat "Math" 7 w1 = (Ok tt, w2) /\
    record_book (get_student w2 1%nat) !! "Math" = Some 7.
Proof.
  destruct (add_subject_then_take_exam strip_ascii exam_world 0%nat 1%nat "Math" 7)
    as (w1 & w2 & Hadd & _ & Htake & Hrec).
  - vm_compute. discriminate.
  - reflexivity.
  - lia.
  - exists w1, w2. split; [exact Hadd |]. split; [exact Htake | exact Hrec].
Defined.

Lemma lent_world_no_duplicates s :
  NoDup (borrowed_books (get_student lent_world s)).
Proof.
  unfold get_student, lent_world. simpl. rewrite lookup_total_alt.
  destruct (decide (s = 0%nat)) as [-> | Hne].
  - rewrite lookup_singleton_eq. simpl. apply NoDup_singleton.
  - rewrite lookup_singleton_ne by done. simpl. apply NoDup_nil_2.
Defined.

Lemma borrowed_books_no_duplicates_witness :
  NoDup (borrowed_books (get_student (borrow_book 0%nat book_1984 lent_world).2 0%nat)) /\
  NoDup (borrowed_books (get_student (return_book 0%nat book_1984 lent_world).2 0%nat)).
Proof.
  destruct (borrowed_books_no_duplicates lent_world 0%nat book_1984
              lent_world_no_duplicates) as [Hb Hr].
  split; [apply Hb | apply Hr].
Defined.

Lemma borrow_return_round_trip_witness :
  (borrow_book 0%nat book_1984 ;;; return_book 0%nat book_1984) library_world
  = (Ok tt, library_world).
Proof.
  apply (borrow_return_round_trip library_world 0%nat reader book_1984).
  - reflexivity.
  - vm_compute. apply not_elem_of_nil.
Defined.

(** [test_return_book]: the reader brings the book back. *)
Lemma accept_return_spec_witness :
  exists w',
    accept_return 0%nat "1984" lent_world = (Ok tt, w') /\
    borrowed_books (get_student w' 0%nat) = [] /\
    get_inventory w' = [(book_1984, 2)].
Proof.
  destruct (accept_return_spec lent_world 0%nat "1984") as [_ H].
  destruct (H [] book_1984 1 []) as [_ Hok].
  - reflexivity.
  - constructor.
  - reflexivity.
  - destruct Hok as (w' & Hrun & Hb & Hinv & _).
    + vm_compute. apply list_elem_of_here.
    + exists w'. split; [exact Hrun |]. split; [exact Hb | exact Hinv].
Defined.

Lemma lend_return_round_trip_witness :
  (lend_book 0%nat "1984" ;;; accept_return 0%nat "1984") stocked_world
  = (Ok tt, stocked_world).
Proof.
  apply (lend_return_round_trip stocked_world 0%nat reader "1984" [] [] book_1984 2).
  - reflexivity.
  - reflexivity.
  - constructor.
  - reflexivity.
  - lia.
  - vm_compute. apply not_elem_of_nil.
Defined.

(** [test_lend_book_out_of_stock] with one copy. *)
Lemma lend_last_copy_witness :
  exists w1,
    lend_book 1%nat "1984" lent_world = (Ok tt, w1) /\
    lend_book 2%nat "1984" w1 = (Raise ResourceError, w1).
Proof.
  destruct (lend_last_copy lent_world 1%nat "1984" [] [] book_1984)
    as (w1 & Hrun & _ & Hnext).
  - reflexivity.
  - constructor.
  - reflexivity.
  - vm_compute. apply not_elem_of_nil.
  - exists w1. split; [exact Hrun | apply Hnext].
Defined.

Lemma inventory_keys_distinct_witness :
  NoDup (get_inventory
           (after_calls [CallAddBook book_1984 2; CallAddBook book_1984 1;
                         CallLendBook 0%nat "1984"] library_world)).*1.
Proof. apply inventory_keys_distinct. reflexivity. Defined.

Lemma exam_world_classrooms_allocated : classrooms_allocated exam_world.
Proof. apply Forall_singleton. vm_compute. by eexists. Defined.

Lemma add_classroom_spec_witness :
  add_classroom 101 30 exam_world = (Raise ResourceError, exam_world) /\
  exists r w', add_classroom 102 30 exam_world = (Ok r, w') /\
               classrooms (uni w') = [0%nat; r].
Proof.
  split.
  - destruct (add_classroom_spec exam_world 101 30) as [H _].
    apply H. vm_compute. apply list_elem_of_here.
  - destruct (add_classroom_spec exam_world 102 30) as [_ H].
    destruct H as (r & w' & Hrun & _ & _ & Hl & _).
    + vm_compute. intros Hin. apply list_elem_of_singleton in Hin. discriminate.
    + exists r, w'. split; [exact Hrun | exact Hl].
Defined.

Lemma classroom_numbers_distinct_witness :
  NoDup (classroom_numbers (add_classroom 102 30 exam_world).2).
Proof.
  destruct (classroom_numbers_distinct exam_world 102 30) as [_ H].
  - exact exam_world_classrooms_allocated.
  - vm_compute. apply NoDup_singleton.
  - exact H.
Defined.

Lemma exam_world_curricula_allocated : curricula_allocated exam_world.
Proof. apply Forall_singleton. vm_compute. by eexists. Defined.

(** [test_add_curriculum_duplicate] and [test_add_curriculum_empty]. *)
Lemma add_curriculum_spec_witness :
  add_curriculum lower_ascii strip_ascii "   " exam_world = (Raise ValueError, exam_world) /\
  add_curriculum lower_ascii strip_ascii "it" exam_world = (Raise ResourceError, exam_world) /\
  exists r w', add_curriculum lower_ascii strip_ascii "CS" exam_world = (Ok r, w').
Proof.
  split; [| split].
  - destruct (add_curriculum_spec lower_ascii strip_ascii exam_world "   ") as [H _].
    apply H. reflexivity.
  - destruct (add_curriculum_spec lower_ascii strip_ascii exam_world "it") as (_ & H & _).
    apply H.
    + vm_compute. discriminate.
    + vm_compute. apply list_elem_of_here.
  - destruct (add_curriculum_spec lower_ascii strip_ascii exam_world "CS") as (_ & _ & H).
    destruct H as (r & w' & Hrun & _).
    + vm_compute. discriminate.
    + vm_compute. intros Hin. apply list_elem_of_singleton in Hin. discriminate.
    + exists r, w'. exact Hrun.
Defined.

Lemma curriculum_names_distinct_witness :
  NoDup (curriculum_keys lower_ascii
           (add_curriculum lower_ascii strip_ascii "CS" exam_world).2).
Proof.
  destruct (curriculum_names_distinct lower_ascii strip_ascii exam_world "CS") as [_ H].
  - exact exam_world_curricula_allocated.
  - vm_compute. apply NoDup_singleton.
  - exact H.
Defined.

(** [test_enroll_student_case_insensitive]: CS is created and found as cs. *)
Lemma add_curriculum_then_enroll_witness :
  exists r w1 s w2,
    add_curriculum lower_ascii strip_ascii "CS" exam_world = (Ok r, w1) /\
    enroll_student lower_ascii (fun _ => "uuid") "Bob" 19 "cs" w1 = (Ok s, w2) /\
    curriculum (get_student w2 s) = Some r.
Proof.
  destruct (add_curriculum_then_enroll lower_ascii (fun _ => "uuid") strip_ascii
              exam_world "CS" "cs" "Bob" 19)
    as (r & w1 & s & w2 & Hadd & _ & Henroll & Hcur & _).
  - exact exam_world_curricula_allocated.
  - vm_compute. discriminate.
  - vm_compute. intros Hin. apply list_elem_of_singleton in Hin. discriminate.
  - reflexivity.
  - exists r, w1, s, w2. split; [exact Hadd |]. split; [exact Henroll | exact Hcur].
Defined.

(** [test_create_exam] and [test_create_exam_wrong_teacher]. *)
Lemma enroll_teacher_then_create_exam_witness :
  exists t w1,
    enroll_teacher (fun _ => "uuid") "T" 30 LECTURER ["Math"] exam_world = (Ok t, w1) /\
    (exists ex w2, create_exam (fun _ => 0) "Math" t 0%nat [] w1 = (Ok ex, w2)) /\
    create_exam (fun _ => 0) "History" t 0%nat [] w1 = (Raise EnrollmentError, w1).
Proof.
  destruct (enroll_teacher_then_create_exam (fun _ => "uuid") (fun _ => 0)
              exam_world "T" 30 LECTURER ["Math"]) as [_ H].
  destruct H as (t & w1 & Hrun & _ & _ & Hexam); [discriminate |].
  exists t, w1. split; [exact Hrun |]. split.
  - destruct (Hexam "Math" 0%nat []) as [H _].
    destruct H as (ex & w2 & Hc & _); [apply list_elem_of_here |].
    exists ex, w2. exact Hc.
  - destruct (Hexam "History" 0%nat []) as [_ H]. apply H.
    intros Hin. apply list_elem_of_singleton in Hin. discriminate.
Defined.

Lemma fire_teacher_spec_witness :
  exists w',
    fire_teacher oop_teacher exam_world = (Ok tt, w') /\
    teachers (uni w') `sublist_of` [oop_teacher; history_teacher].
Proof.
  destruct (fire_teacher_spec exam_world oop_teacher) as [_ H].
  destruct H as (w' & Hrun & _ & Hsub & _).
  - apply list_elem_of_here.
  - exists w'. split; [exact Hrun | exact Hsub].
Defined.

Lemma exam_world_ids_distinct : NoDup (student_ids exam_world).
Proof.
  vm_compute. apply NoDup_cons. split; [| apply NoDup_singleton].
  intros Hin. apply list_elem_of_singleton in Hin. discriminate.
Defined.

(** [test_conduct_exam_expulsion], the part of the caller. *)
Lemma expel_student_spec_witness :
  exists w',
    expel_student 0%nat exam_world = (Ok tt, w') /\
    0%nat ∉ students (uni w').
Proof.
  destruct (expel_student_spec exam_world 0%nat) as [_ H].
  destruct H as (w' & Hrun & Hout & _).
  - exact exam_world_ids_distinct.
  - apply list_elem_of_here.
  - exists w'. split; [exact Hrun | exact Hout].
Defined.

Lemma enroll_then_expel_witness :
  exists r w1 w2,
    enroll_student lower_ascii (fun _ => "uuid") "Alex" 18 "IT" exam_world = (Ok r, w1) /\
    expel_student r w1 = (Ok tt, w2) /\
    students (uni w2) = [0%nat; 1%nat].
Proof.
  destruct (enroll_then_expel lower_ascii (fun _ => "uuid") exam_world "Alex" 18 "IT" 0%nat)
    as (r & w1 & w2 & Henroll & _ & Hexpel & Hl & _).
  - repeat (apply Forall_cons; split); [| | apply Forall_nil]; vm_compute; by eexists.
  - reflexivity.
  - vm_compute. intros Hin.
    apply elem_of_cons in Hin as [Hin | Hin]; [discriminate |].
    apply list_elem_of_singleton in Hin. discriminate.
  - exists r, w1, w2. split; [exact Henroll |]. split; [exact Hexpel | exact Hl].
Defined.

(** [TestScholarship] through the university. *)
Lemma process_semester_end_spec_witness :
  exists w',
    process_semester_end scholarship_world = (Ok tt, w') /\
    scholarship_amount (get_student w' 0%nat) = B64.of_Z 120.
Proof.
  destruct (process_semester_end_spec scholarship_world) as [_ H].
  destruct H as (w' & Hrun & _ & Hin).
  - repeat (apply Forall_cons; split); [| | apply Forall_nil];
      apply (bool_decide_unpack _); vm_compute; exact I.
  - exists w'. split; [exact Hrun |].
    destruct (Hin 0%nat) as (avg & Havg & Ham & _); [apply list_elem_of_here |].
    rewrite Ham. vm_compute in Havg. injection Havg as <-. reflexivity.
Defined.


